(** * CDDconversion: the tolerant CDD parser and the CDD-to-ODX mapper

    A shallow embedding of the two cores of the repository,

      - [enhanced_cdd_parser.py]       (class [EnhancedCDDParser]), and
      - [src/main_cdd_to_odx.py]       (class [CDDToODXConverter]),

    together with the Python built-ins they rest on ([int], [str.strip],
    [str.upper], [str.replace], the [02X]/[04X] format specs) and the part of
    [xml.etree.ElementTree] they use ([find], [findall], [get], [text]).

    Conventions.
      - A Python [str] is a [string]; a value that may be [None] is an
        [option].  Strings are taken to be ASCII: Python's handling of code
        points above 127 (Unicode digits and white space, full case mapping)
        is outside the model.
      - A Python [dict] is a [gmap].
      - A function whose body is wrapped in [try: ... except Exception:
        return None] is written in the [result] monad and closed by
        [catch_none].
      - Printing ([print]) is not modelled. *)

From Stdlib Require Import ZArith Ascii String List Lia Bool.
From stdpp Require Import base option list strings gmap.

#[local] Open Scope string_scope.
#[local] Open Scope Z_scope.
#[local] Set Warnings "-register-all".

(* ===================================================================== *)
(** ** Python exceptions as values *)
(* ===================================================================== *)

Inductive exn : Type :=
  | ValueError
  | UnboundLocalError
  | AttributeError.

Inductive result (A : Type) : Type :=
  | Ok (a : A)
  | Raise (e : exn).

Arguments Ok {A} a.
Arguments Raise {A} e.

#[global] Instance result_ret : MRet result := fun A a => Ok a.

#[global] Instance result_bind : MBind result := fun A B k r =>
  match r with
  | Ok a => k a
  | Raise e => Raise e
  end.

(** [try: body except Exception as e: ...; return None].  All three
    exceptions of the model derive from [Exception]. *)
Definition catch_none {A : Type} (r : result A) : option A :=
  match r with
  | Ok a => Some a
  | Raise _ => None
  end.

(** A Python local variable: unbound until its first assignment. *)
Inductive local (A : Type) : Type :=
  | Unbound
  | Bound (a : A).

Arguments Unbound {A}.
Arguments Bound {A} a.

Definition read_local {A : Type} (v : local A) : result A :=
  match v with
  | Bound a => Ok a
  | Unbound => Raise UnboundLocalError
  end.

(* ===================================================================== *)
(** ** The Python built-ins used by the two modules *)
(* ===================================================================== *)

Module Py.

Definition code (c : ascii) : Z := Z.of_N (N_of_ascii c).

(** White space for [str.strip()] on ASCII text: TAB..CR, FS..US, SPACE. *)
Definition is_str_space (c : ascii) : bool :=
  ((9 <=? code c) && (code c <=? 13))
  || ((28 <=? code c) && (code c <=? 31))
  || (code c =? 32).

(** White space for [int()]: C's [isspace], TAB..CR and SPACE. *)
Definition is_c_space (c : ascii) : bool :=
  ((9 <=? code c) && (code c <=? 13)) || (code c =? 32).

Fixpoint lstrip_with (sp : ascii -> bool) (s : string) : string :=
  match s with
  | String c s' => if sp c then lstrip_with sp s' else s
  | EmptyString => EmptyString
  end.

(** Drops the trailing run of [sp] characters. *)
Fixpoint rstrip_with (sp : ascii -> bool) (s : string) : string :=
  match s with
  | String c s' =>
      match rstrip_with sp s' with
      | EmptyString => if sp c then EmptyString else String c EmptyString
      | r => String c r
      end
  | EmptyString => EmptyString
  end.

(** [s.strip()] *)
Definition strip (s : string) : string :=
  rstrip_with is_str_space (lstrip_with is_str_space s).

Definition upper_char (c : ascii) : ascii :=
  if (97 <=? code c) && (code c <=? 122)
  then ascii_of_N (Z.to_N (code c - 32))
  else c.

(** [s.upper()] *)
Fixpoint upper (s : string) : string :=
  match s with
  | String c s' => String (upper_char c) (upper s')
  | EmptyString => EmptyString
  end.

(** [s.startswith(p)] *)
Fixpoint startswith (p s : string) : bool :=
  match p, s with
  | EmptyString, _ => true
  | String a p', String b s' => Ascii.eqb a b && startswith p' s'
  | String _ _, EmptyString => false
  end.

(** [c in t] for a character [c] *)
Fixpoint char_in (c : ascii) (t : string) : bool :=
  match t with
  | String d t' => Ascii.eqb c d || char_in c t'
  | EmptyString => false
  end.

(** [all(p(c) for c in s)] *)
Fixpoint all_chars (p : ascii -> bool) (s : string) : bool :=
  match s with
  | String c s' => p c && all_chars p s'
  | EmptyString => true
  end.

(** [p in s] for strings: [p] occurs in [s] as a substring. *)
Fixpoint contains (p s : string) : bool :=
  startswith p s
  || match s with
     | String _ s' => contains p s'
     | EmptyString => false
     end.

Fixpoint drop (n : nat) (s : string) : string :=
  match n, s with
  | S n', String _ s' => drop n' s'
  | _, _ => s
  end.

(** [s.replace(old, '')] for a non-empty [old]: scanning from the left,
    every non-overlapping occurrence of [old] is removed.  The fuel is the
    length of [s], one unit per step, each step consuming at least one
    character. *)
Fixpoint remove_all_fuel (fuel : nat) (old s : string) : string :=
  match fuel with
  | O => s
  | S fuel' =>
      match s with
      | EmptyString => EmptyString
      | String c s' =>
          if startswith old s
          then remove_all_fuel fuel' old (drop (String.length old) s)
          else String c (remove_all_fuel fuel' old s')
      end
  end.

Definition remove_all (old s : string) : string :=
  remove_all_fuel (String.length s) old s.

(** *** [int(s)] and [int(s, 16)] *)

(** CPython's digit table: the value of a digit character, 37 for any
    other character. *)
Definition digit_value (c : ascii) : Z :=
  if (48 <=? code c) && (code c <=? 57) then code c - 48
  else if (97 <=? code c) && (code c <=? 122) then code c - 87
  else if (65 <=? code c) && (code c <=? 90) then code c - 55
  else 37.

(** The digit scan: digits below [base], single underscores between
    them; a doubled or trailing underscore is a syntax error ([None]).
    Returns the value, the number of digits and the unread rest. *)
Fixpoint scan_digits (base : Z) (prev_us : bool) (acc : Z) (n : nat)
    (s : string) : option (Z * nat * string) :=
  match s with
  | String c s' =>
      if Ascii.eqb c "_"
      then (if prev_us then None else scan_digits base true acc n s')
      else if digit_value c <? base
      then scan_digits base false (acc * base + digit_value c) (S n) s'
      else if prev_us then None else Some (acc, n, s)
  | EmptyString => if prev_us then None else Some (acc, n, s)
  end.

Definition skip_sign (s : string) : bool * string :=
  match s with
  | String "+" s' => (false, s')
  | String "-" s' => (true, s')
  | _ => (false, s)
  end.

(** With base 16 a leading [0x]/[0X] is skipped, and one underscore
    after it. *)
Definition skip_prefix (base : Z) (s : string) : string :=
  match s with
  | String "0" (String x s') =>
      if (base =? 16) && (Ascii.eqb x "x" || Ascii.eqb x "X")
      then match s' with
           | String "_" s'' => s''
           | _ => s'
           end
      else s
  | _ => s
  end.

(** The bases that are powers of two: their conversion is linear and has
    no limit on the number of digits. *)
Definition is_binary_base (base : Z) : bool :=
  (base =? 2) || (base =? 4) || (base =? 8) || (base =? 16) || (base =? 32).

(** [sys.get_int_max_str_digits()], at its default. *)
Definition max_str_digits : Z := 4300.

(** [int(s, base)] for [base] 10 or 16; [Raise ValueError] where Python
    raises [ValueError].  The steps are those of CPython's
    [PyLong_FromString]: leading white space, sign, base prefix, digits with
    single underscores, the limit on the number of digits (leading zeros
    counted, underscores not) for a base that is not a power of two,
    trailing white space, end of text. *)
Definition int_base (base : Z) (s : string) : result Z :=
  let s1 := lstrip_with is_c_space s in
  let '(neg, s2) := skip_sign s1 in
  let s3 := skip_prefix base s2 in
  if startswith "_" s3 then Raise ValueError
  else match scan_digits base false 0 0%nat s3 with
       | None => Raise ValueError
       | Some (v, n, rest) =>
           if (n =? 0)%nat then Raise ValueError
           else if negb (is_binary_base base) && (max_str_digits <? Z.of_nat n)
           then Raise ValueError
           else match lstrip_with is_c_space rest with
                | EmptyString => Ok (if neg then - v else v)
                | String _ _ => Raise ValueError
                end
       end.

Definition int (s : string) : result Z := int_base 10 s.
Definition int16 (s : string) : result Z := int_base 16 s.

(** *** The format specs [02X] and [04X] *)

Definition hex_char (d : Z) : ascii :=
  if d <? 10 then ascii_of_N (Z.to_N (48 + d))
  else ascii_of_N (Z.to_N (55 + d)).

(** Upper-case hex digits of [n >= 0], most significant first; fuel
    bounds the number of digits. *)
Fixpoint hex_digits (fuel : nat) (n : Z) (acc : string) : string :=
  match fuel with
  | O => acc
  | S fuel' =>
      let acc' := String (hex_char (n mod 16)) acc in
      if n / 16 =? 0 then acc' else hex_digits fuel' (n / 16) acc'
  end.

(** [format(n, 'X')] for [n >= 0] *)
Definition hex_upper (n : Z) : string :=
  hex_digits (S (Z.to_nat (Z.log2 n))) n "".

Fixpoint zeros (k : nat) : string :=
  match k with
  | O => EmptyString
  | S k' => String "0" (zeros k')
  end.

Definition zfill (w : nat) (s : string) : string :=
  zeros (w - String.length s) ++ s.

(** [format(n, '0wX')]: sign-aware zero padding to a total width [w];
    a longer rendering is not truncated. *)
Definition format_0X (w : nat) (n : Z) : string :=
  if n <? 0 then String "-" (zfill (w - 1) (hex_upper (- n)))
  else zfill w (hex_upper n).

End Py.

(* ===================================================================== *)
(** ** The part of [xml.etree.ElementTree] the parser uses *)
(* ===================================================================== *)

Module ET.

(** An [Element]: tag, attribute dictionary, text ([None] when the
    element has no text) and children in document order.  The parser of
    ElementTree stores an attribute written [xml:lang] under the key
    [{http://www.w3.org/XML/1998/namespace}lang]. *)
Inductive Element : Type := mkElement {
  tag : string;
  attrib : gmap string string;
  text : option string;
  children : list Element
}.

Definition xml_lang : string := "{http://www.w3.org/XML/1998/namespace}lang".

(** [elem.get(k)] *)
Definition get (e : Element) (k : string) : option string := attrib e !! k.

(** [elem.get(k, d)] *)
Definition get_default (e : Element) (k d : string) : string :=
  default d (attrib e !! k).

(** [elem.iter()] without [elem] itself: every descendant, in document
    order. *)
Fixpoint descendants (e : Element) : list Element :=
  flat_map (fun c => c :: descendants c) (children e).

Definition has_tag (t : string) (e : Element) : bool := String.eqb (tag e) t.

(** [elem.findall('T')]: the children tagged [T]. *)
Definition findall_child (t : string) (e : Element) : list Element :=
  List.filter (has_tag t) (children e).

(** [elem.findall('A/B')] *)
Definition findall_path (a b : string) (e : Element) : list Element :=
  flat_map (findall_child b) (findall_child a e).

(** [elem.findall('.//T')]: the descendants tagged [T]. *)
Definition findall_desc (t : string) (e : Element) : list Element :=
  List.filter (has_tag t) (descendants e).

(** [elem.findall('.//A//B')] *)
Definition findall_desc_desc (a b : string) (e : Element) : list Element :=
  flat_map (findall_desc b) (findall_desc a e).

(** [elem.findall(".//T[@k='v']")] *)
Definition findall_desc_attr (t k v : string) (e : Element) : list Element :=
  List.filter (fun c => bool_decide (get c k = Some v)) (findall_desc t e).

(** [elem.find(path)] is the first element of [elem.findall(path)], or
    [None]. *)
Definition find_child (t : string) (e : Element) : option Element :=
  head (findall_child t e).
Definition find_path (a b : string) (e : Element) : option Element :=
  head (findall_path a b e).
Definition find_desc (t : string) (e : Element) : option Element :=
  head (findall_desc t e).
Definition find_desc_attr (t k v : string) (e : Element) : option Element :=
  head (findall_desc_attr t k v e).

(** [elem.text if elem is not None else d] *)
Definition text_or (d : string) (o : option Element) : option string :=
  match o with
  | Some e => text e
  | None => Some d
  end.

End ET.

(** Truth value of an [Optional[str]]: [None] and [''] are false. *)
Definition truthy (o : option string) : bool :=
  match o with
  | Some (String _ _) => true
  | _ => false
  end.

(** [a or b] on an [Optional[str]] with a string fallback. *)
Definition or_else (o : option string) (d : string) : string :=
  match o with
  | Some (String c s) => String c s
  | _ => d
  end.

(* ===================================================================== *)
(** ** [enhanced_cdd_parser.py] *)
(* ===================================================================== *)

Module Parser.
Import ET.

Record CDDComponent : Type := {
  comp_id : string;
  comp_name : option string;
  comp_qualifier : option string;
  comp_description : string;
  component_type : string;
  must : bool;
  comp_spec : string;
  bit_length : string;
  value : string;
  comp_data_type_ref : string
}.

Record CDDServiceMessage : Type := {
  msg_id : string;
  msg_name : option string;
  msg_qualifier : option string;
  components : list CDDComponent
}.

Record CDDProtocolService : Type := {
  svc_id : string;
  svc_name : option string;
  svc_qualifier : option string;
  svc_description : string;
  uds_service_id : option Z;
  func : bool;
  phys : bool;
  multiple_response : bool;
  response_on_physical : bool;
  response_on_functional : bool;
  request : option CDDServiceMessage;
  positive_response : option CDDServiceMessage;
  negative_response : option CDDServiceMessage
}.

Record CDDDataObject : Type := {
  obj_id : string;
  obj_name : option string;
  obj_qualifier : option string;
  obj_description : string;
  data_type_ref : string;
  obj_spec : string
}.

Record CDDDID : Type := {
  did_id : string;
  number : Z;
  number_hex : string;
  did_name : option string;
  did_qualifier : option string;
  did_description : option string;
  data_objects : list CDDDataObject
}.

Record CDDCommunicationParams : Type := {
  physical_request_id : string;
  physical_response_id : string;
  functional_request_id : string;
  addressing_scheme : string;
  can_id_type : string
}.

Record CDDDocument : Type := {
  ecu_name : string;
  manufacturer : string;
  version : string;
  protocol_services : list CDDProtocolService;
  dids : list CDDDID;
  communication_params : CDDCommunicationParams
}.

(** [CDDCommunicationParams()] and [CDDDocument()] *)
Definition new_communication_params : CDDCommunicationParams :=
  {| physical_request_id := ""; physical_response_id := "";
     functional_request_id := ""; addressing_scheme := "";
     can_id_type := "" |}.

Definition new_document : CDDDocument :=
  {| ecu_name := ""; manufacturer := ""; version := "";
     protocol_services := []; dids := [];
     communication_params := new_communication_params |}.

(** The name locator shared by services, messages, components and data
    objects:
<<
    name_elem = elem.find('NAME/TUV')
    if name_elem is None:
        name_elems = elem.findall('.//TUV')
        name_elem = name_elems[0] if name_elems else None
>> *)
Definition locate_name (e : Element) : option Element :=
  match find_path "NAME" "TUV" e with
  | Some x => Some x
  | None => head (findall_desc "TUV" e)
  end.

(** The name locator of [_parse_did], whose fallback is
<<
    next((elem for elem in name_elems
          if 'xml:lang' not in elem.attrib
             or elem.get('{http://www.w3.org/XML/1998/namespace}lang') == 'en-US'),
         name_elems[0] if name_elems else None)
>> *)
Definition did_lang_ok (e : Element) : bool :=
  negb (bool_decide (is_Some (attrib e !! "xml:lang")))
  || bool_decide (get e xml_lang = Some "en-US").

Definition locate_did_name (e : Element) : option Element :=
  match find_path "NAME" "TUV" e with
  | Some x => Some x
  | None =>
      let name_elems := findall_desc "TUV" e in
      match head (List.filter did_lang_ok name_elems) with
      | Some x => Some x
      | None => head name_elems
      end
  end.

(** [_parse_data_object] *)
Definition _parse_data_object (dataobj_elem : Element) : option CDDDataObject :=
  catch_none (
    let obj_id := get_default dataobj_elem "id" "" in
    let name_elem := locate_name dataobj_elem in
    let name := text_or "DataObject" name_elem in
    let qual_elem := find_child "QUAL" dataobj_elem in
    let qualifier :=
      match qual_elem with Some q => text q | None => name end in
    let dtref := get_default dataobj_elem "dtref" "" in
    let spec := get_default dataobj_elem "spec" "" in
    mret {| obj_id := obj_id; obj_name := name; obj_qualifier := qualifier;
            obj_description := ""; data_type_ref := dtref;
            obj_spec := spec |}).

(** [_parse_did] *)
Definition _parse_did (did_elem : Element) : option CDDDID :=
  catch_none (
    let did_id := get_default did_elem "id" "" in
    did_number ← Py.int (get_default did_elem "n" "0");
    let did_hex := "0x" ++ Py.format_0X 4 did_number in
    let name_elem := locate_did_name did_elem in
    let name := text_or ("DID_" ++ did_hex) name_elem in
    let qual_elem := find_child "QUAL" did_elem in
    let qualifier :=
      match qual_elem with Some q => text q | None => name end in
    let desc_elem :=
      match find_path "DESC" "TUV" did_elem with
      | Some d => Some d
      | None => head (findall_desc_desc "DESC" "TUV" did_elem)
      end in
    let description := text_or "" desc_elem in
    let data_objects :=
      match find_child "STRUCTURE" did_elem with
      | Some structure_elem =>
          omap _parse_data_object (findall_desc "DATAOBJ" structure_elem)
      | None => []
      end in
    mret {| did_id := did_id; number := did_number; number_hex := did_hex;
            did_name := name; did_qualifier := qualifier;
            did_description := description;
            data_objects := data_objects |}).

(** [_extract_dids]: every parsed DID is appended to [document.dids]. *)
Definition _extract_dids (root : Element) (document : CDDDocument) : CDDDocument :=
  match find_desc "DIDS" root with
  | None => document
  | Some dids_section =>
      {| ecu_name := ecu_name document;
         manufacturer := manufacturer document;
         version := version document;
         protocol_services := protocol_services document;
         dids := dids document
                 ++ omap _parse_did (findall_child "DID" dids_section);
         communication_params := communication_params document |}
  end.

(** The table [uds_descriptions] of [_get_enhanced_service_description],
    keyed by the UDS service ID. *)
Definition uds_descriptions : gmap Z string :=
  list_to_map [
    (0x10, "Controls diagnostic session state. Allows switching between different diagnostic sessions (default, programming, extended) with different access levels and timeouts.");
    (0x11, "Performs ECU reset operations. Supports hard reset, key-off-on reset, and soft reset to restart ECU functionality.");
    (0x14, "Clears diagnostic trouble codes (DTCs) and their associated status information from ECU memory.");
    (0x19, "Reads diagnostic trouble codes (DTCs) with various subfunctions for different DTC formats and status masks.");
    (0x22, "Reads data from ECU memory using Data Identifiers (DIDs). Provides access to real-time data, configuration parameters, and diagnostic information.");
    (0x23, "Reads data from ECU memory by specifying memory address and size. Direct memory access for diagnostic purposes.");
    (0x24, "Reads scaling information for data identifiers to convert raw values to physical units.");
    (0x27, "Provides security access to protected diagnostic functions. Uses seed-key mechanism for authentication.");
    (0x28, "Controls communication with ECU. Can disable/enable normal communication and network management.");
    (0x2A, "Reads data with periodic transmission. Sets up cyclic data transmission from ECU to tester.");
    (0x2C, "Dynamically defines data identifiers by memory address. Creates custom DIDs for specific memory locations.");
    (0x2E, "Writes data to ECU memory using Data Identifiers (DIDs). Allows modification of configuration parameters and calibration data.");
    (0x2F, "Controls input/output operations. Can force specific states on ECU inputs and outputs for testing purposes.");
    (0x31, "Executes diagnostic routines. Starts, stops, and requests results from various diagnostic procedures.");
    (0x34, "Initiates download of data to ECU memory. Requests memory allocation for data transfer operations.");
    (0x35, "Initiates upload of data from ECU memory. Requests memory allocation for data retrieval operations.");
    (0x36, "Transfers data blocks to ECU during download operations. Continues data transfer started with RequestDownload.");
    (0x37, "Transfers data blocks from ECU during upload operations. Continues data transfer started with RequestUpload.");
    (0x38, "Completes data transfer operations. Finalizes download/upload and verifies data integrity.");
    (0x3D, "Writes data to ECU memory by specifying memory address and size. Direct memory write access for diagnostic purposes.");
    (0x3E, "Maintains active diagnostic session. Prevents timeout of current diagnostic session through periodic transmission.");
    (0x83, "Provides access to diagnostic data related to communication and network management.");
    (0x84, "Controls network management and communication flow within the vehicle network.");
    (0x85, "Manages diagnostic communication timing parameters and session behavior.");
    (0x86, "Controls response behavior for diagnostic requests in functional and physical addressing modes.");
    (0x87, "Provides access to vehicle identification and diagnostic capabilities information.") ].

Definition generic_description (service_name : string) : string :=
  "UDS diagnostic service providing " ++ service_name
  ++ " functionality according to ISO 14229-1 specification.".

(** [_get_enhanced_service_description]: the table entry of the service
    ID when it has one, else the first name fragment found in the name,
    else the generic sentence.  [if service_name:] guards the fragment
    chain. *)
Definition _get_enhanced_service_description (service_name : string)
    (uds_service_id : option Z) : string :=
  match (match uds_service_id with
         | Some n => uds_descriptions !! n
         | None => None
         end) with
  | Some d => d
  | None =>
    if negb (truthy (Some service_name)) then generic_description service_name
    else
    if Py.contains "DiagnosticSessionControl" service_name
    then default "Controls diagnostic session state" (uds_descriptions !! 0x10)
    else if Py.contains "ECUReset" service_name
    then default "Performs ECU reset operations" (uds_descriptions !! 0x11)
    else if Py.contains "ClearDiagnosticInformation" service_name
    then default "Clears diagnostic trouble codes" (uds_descriptions !! 0x14)
    else if Py.contains "ReadDTCInformation" service_name
    then default "Reads diagnostic trouble codes" (uds_descriptions !! 0x19)
    else if Py.contains "ReadDataByIdentifier" service_name
    then default "Reads data using Data Identifiers" (uds_descriptions !! 0x22)
    else if Py.contains "ReadMemoryByAddress" service_name
    then default "Reads data by memory address" (uds_descriptions !! 0x23)
    else if Py.contains "SecurityAccess" service_name
    then default "Provides security access control" (uds_descriptions !! 0x27)
    else if Py.contains "CommunicationControl" service_name
    then default "Controls ECU communication" (uds_descriptions !! 0x28)
    else if Py.contains "WriteDataByIdentifier" service_name
    then default "Writes data using Data Identifiers" (uds_descriptions !! 0x2E)
    else if Py.contains "InputOutputControlByIdentifier" service_name
    then default "Controls input/output operations" (uds_descriptions !! 0x2F)
    else if Py.contains "RoutineControl" service_name
    then default "Executes diagnostic routines" (uds_descriptions !! 0x31)
    else if Py.contains "RequestDownload" service_name
    then default "Initiates data download to ECU" (uds_descriptions !! 0x34)
    else if Py.contains "RequestUpload" service_name
    then default "Initiates data upload from ECU" (uds_descriptions !! 0x35)
    else if Py.contains "TransferData" service_name
    then "Transfers data blocks between tester and ECU during download/upload operations"
    else if Py.contains "RequestTransferExit" service_name
    then default "Completes data transfer operations" (uds_descriptions !! 0x38)
    else if Py.contains "WriteMemoryByAddress" service_name
    then default "Writes data by memory address" (uds_descriptions !! 0x3D)
    else if Py.contains "TesterPresent" service_name
    then default "Maintains active diagnostic session" (uds_descriptions !! 0x3E)
    else generic_description service_name
  end.

(** [_parse_component] *)
Definition _parse_component (comp_elem : Element) (comp_type : string)
    : option CDDComponent :=
  catch_none (
    let comp_id := get_default comp_elem "id" "" in
    let name_elem := locate_name comp_elem in
    let name := text_or "Component" name_elem in
    let qual_elem := find_child "QUAL" comp_elem in
    let qualifier := text_or "" qual_elem in
    let must := bool_decide (get comp_elem "must" = Some "1") in
    let spec := get_default comp_elem "spec" "" in
    let bit_length := get_default comp_elem "bl" "" in
    let value := get_default comp_elem "v" "" in
    let dtref := get_default comp_elem "dtref" "" in
    mret {| comp_id := comp_id; comp_name := name;
            comp_qualifier := qualifier; comp_description := "";
            component_type := comp_type; must := must; comp_spec := spec;
            bit_length := bit_length; value := value;
            comp_data_type_ref := dtref |}).

(** The three loops of [_parse_service_message], one per component kind. *)
Definition parse_components (msg_elem : Element) (comp_type : string)
    : list CDDComponent :=
  omap (fun comp_elem => _parse_component comp_elem comp_type)
       (findall_desc comp_type msg_elem).

(** [_parse_service_message] *)
Definition _parse_service_message (msg_elem : Element)
    : option CDDServiceMessage :=
  catch_none (
    let msg_id := get_default msg_elem "id" "" in
    let name_elem := locate_name msg_elem in
    let name := text_or "Message" name_elem in
    let qual_elem := find_child "QUAL" msg_elem in
    let qualifier := text_or "" qual_elem in
    let components :=
      (parse_components msg_elem "CONSTCOMP"
       ++ parse_components msg_elem "STATICCOMP"
       ++ parse_components msg_elem "SIMPLEPROXYCOMP")%list in
    mret {| msg_id := msg_id; msg_name := name;
            msg_qualifier := qualifier; components := components |}).

(** The description step of [_parse_protocol_service] (lines 306-317).
    [uds_service_id] is the function's local variable of that name in the
    state it has when the step runs. *)
Definition resolve_description (service_elem : Element)
    (name_elem : option Element) (uds_service_id : local (option Z))
    : result string :=
  let desc_elem := find_path "DESC" "TUV" service_elem in
  match desc_elem with
  | Some (mkElement _ _ (Some (String c d)) _) => mret (String c d)
  | _ =>
      match name_elem with
      | Some (mkElement _ _ (Some (String c n)) _) =>
          sid ← read_local uds_service_id;
          mret (_get_enhanced_service_description (String c n) sid)
      | _ => mret "UDS diagnostic service"
      end
  end.

(** The SID step (lines 319-328):
<<
    uds_service_id = None
    sid_component = service_elem.find(".//CONSTCOMP[@spec='sid']")
    if sid_component is not None:
        sid_value = sid_component.get('v', '')
        if sid_value:
            try: uds_service_id = int(sid_value)
            except ValueError: pass
>> *)
Definition extract_sid (service_elem : Element) : result (option Z) :=
  let sid_component := find_desc_attr "CONSTCOMP" "spec" "sid" service_elem in
  match sid_component with
  | Some c =>
      let sid_value := get_default c "v" "" in
      if truthy (Some sid_value)
      then match Py.int sid_value with
           | Ok n => mret (Some n)
           | Raise ValueError => mret None
           | Raise e => Raise e
           end
      else mret None
  | None => mret None
  end.

(** [request = None; req_elem = find(t); if req_elem is not None: ...] *)
Definition parse_message_at (t : string) (service_elem : Element)
    : option CDDServiceMessage :=
  match find_child t service_elem with
  | Some msg_elem => _parse_service_message msg_elem
  | None => None
  end.

(** [_parse_protocol_service].  The local variable [uds_service_id] is
    first assigned on line 320, after the description step has read it on
    line 315. *)
Definition _parse_protocol_service (service_elem : Element)
    : option CDDProtocolService :=
  catch_none (
    let uds_service_id : local (option Z) := Unbound in
    let service_id := get_default service_elem "id" "" in
    let name_elem := locate_name service_elem in
    let name := text_or "Unknown Service" name_elem in
    let qual_elem := find_child "QUAL" service_elem in
    let qualifier := text_or "" qual_elem in
    description ← resolve_description service_elem name_elem uds_service_id;
    sid ← extract_sid service_elem;
    let uds_service_id := Bound sid in
    let func := bool_decide (get service_elem "func" = Some "1") in
    let phys := bool_decide (get service_elem "phys" = Some "1") in
    let mresp := bool_decide (get service_elem "mresp" = Some "1") in
    let resp_on_phys := bool_decide (get service_elem "respOnPhys" = Some "1") in
    let resp_on_func := bool_decide (get service_elem "respOnFunc" = Some "1") in
    let request := parse_message_at "REQ" service_elem in
    let positive_response := parse_message_at "POS" service_elem in
    let negative_response := parse_message_at "NEG" service_elem in
    uds ← read_local uds_service_id;
    mret {| svc_id := service_id; svc_name := name;
            svc_qualifier := qualifier; svc_description := description;
            uds_service_id := uds; func := func; phys := phys;
            multiple_response := mresp;
            response_on_physical := resp_on_phys;
            response_on_functional := resp_on_func;
            request := request; positive_response := positive_response;
            negative_response := negative_response |}).

(** [_extract_protocol_services] *)
Definition _extract_protocol_services (root : Element)
    (document : CDDDocument) : CDDDocument :=
  match find_desc "PROTOCOLSERVICES" root with
  | None => document
  | Some services_section =>
      {| ecu_name := ecu_name document;
         manufacturer := manufacturer document;
         version := version document;
         protocol_services :=
           protocol_services document
           ++ omap _parse_protocol_service
                   (findall_child "PROTOCOLSERVICE" services_section);
         dids := dids document;
         communication_params := communication_params document |}
  end.

(** [_extract_document_info] *)
Definition _extract_document_info (root : Element) (document : CDDDocument)
    : CDDDocument :=
  match find_desc "ECUDOC" root with
  | Some ecudoc =>
      {| ecu_name := ecu_name document;
         manufacturer := get_default ecudoc "manufacturer" "Unknown";
         version := version document;
         protocol_services := protocol_services document;
         dids := dids document;
         communication_params := communication_params document |}
  | None => document
  end.

(** [_extract_communication_params]: the scan of the tree has an empty
    body; a fresh parameter record is stored. *)
Definition _extract_communication_params (root : Element)
    (document : CDDDocument) : CDDDocument :=
  {| ecu_name := ecu_name document;
     manufacturer := manufacturer document;
     version := version document;
     protocol_services := protocol_services document;
     dids := dids document;
     communication_params := new_communication_params |}.

(** [parse_file] from the root element on: the four extraction passes
    over [self.document], in the order of the source. *)
Definition parse_root (root : Element) (document : CDDDocument) : CDDDocument :=
  _extract_protocol_services root
    (_extract_dids root
      (_extract_communication_params root
        (_extract_document_info root document))).

End Parser.

(* ===================================================================== *)
(** ** [src/main_cdd_to_odx.py] *)
(* ===================================================================== *)

Module Mapper.

(** The values held by the parameter dictionaries ([List[Dict]]): a
    string, [None], or something that is neither (an integer stands for
    those). *)
Inductive pyval : Type :=
  | PyNone
  | PyStr (s : string)
  | PyInt (n : Z).

#[global] Instance pyval_eq_dec : EqDecision pyval.
Proof. solve_decision. Defined.

(** [d.get(k)] *)
Definition dict_get (d : gmap string pyval) (k : string) : pyval :=
  default PyNone (d !! k).

(** [d.get(k, '').replace(old, '')]: only a string has [replace]. *)
Definition get_replace (d : gmap string pyval) (k old : string) : result string :=
  match default (PyStr "") (d !! k) with
  | PyStr s => Ok (Py.remove_all old s)
  | _ => Raise AttributeError
  end.

(** [models/cdd_model.py] *)
Record Service : Type := {
  id : option string;
  name : option string;
  description : option string;
  request_params : list (gmap string pyval);
  response_params : list (gmap string pyval)
}.

Record DataIdentifier : Type := {
  identifier : option string;
  did_name : option string;
  did_description : option string;
  length : option Z;
  encoding : option string;
  signals : list (gmap string pyval)
}.

Record CommunicationParams : Type := {
  phys_req_id : option string;
  phys_res_id : option string;
  func_req_id : option string;
  p2_timeout : option string;
  p2_star_timeout : option string;
  s3_timeout : option string
}.

Record DiagnosticData : Type := {
  services : list Service;
  data_identifiers : list DataIdentifier;
  communication_params : option CommunicationParams
}.

(** Modelled from the spec: the records [ODXService], [ODXDataIdentifier]
    and [ODXDocument] of [converters/odx_converter.py], which is not among
    the sources.  The fields are those the constructor calls of
    [main_cdd_to_odx.py] name, as section 6 of the specification lists
    them; an instance is a plain object, hence true in a condition. *)
Record ODXService : Type := {
  odx_id : string;
  odx_name : string;
  service_id : string;
  odx_request_params : list (gmap string pyval);
  odx_response_params : list (gmap string pyval);
  odx_description : string
}.

Record ODXDataIdentifier : Type := {
  odx_did_id : string;
  odx_identifier : string;
  odx_did_name : string;
  odx_did_description : string;
  data_type : string;
  odx_length : Z;
  structure : list (gmap string pyval)
}.

Record ODXDocument : Type := {
  odx_services : list ODXService;
  odx_data_identifiers : list ODXDataIdentifier;
  odx_communication_params : gmap string pyval;
  odx_ecu_name : string;
  odx_version : string
}.

(** [self.uds_services] *)
Definition uds_services : gmap string string :=
  list_to_map [
    ("0x10", "DiagnosticSessionControl");
    ("0x11", "ECUReset");
    ("0x14", "ClearDiagnosticInformation");
    ("0x19", "ReadDTCInformation");
    ("0x22", "ReadDataByIdentifier");
    ("0x23", "ReadMemoryByAddress");
    ("0x24", "ReadScalingDataByIdentifier");
    ("0x27", "SecurityAccess");
    ("0x28", "CommunicationControl");
    ("0x2A", "ReadDataByPeriodicIdentifier");
    ("0x2C", "DynamicallyDefineDataIdentifier");
    ("0x2E", "WriteDataByIdentifier");
    ("0x2F", "InputOutputControlByIdentifier");
    ("0x31", "RoutineControl");
    ("0x34", "RequestDownload");
    ("0x35", "RequestUpload");
    ("0x36", "TransferData");
    ("0x37", "RequestTransferExit");
    ("0x3D", "WriteMemoryByAddress");
    ("0x3E", "TesterPresent");
    ("0x83", "AccessTimingParameter");
    ("0x84", "SecuredDataTransmission");
    ("0x85", "ControlDTCSetting");
    ("0x86", "ResponseOnEvent");
    ("0x87", "LinkControl") ].

(** [c in '0123456789ABCDEF'] *)
Definition is_upper_hex (c : ascii) : bool := Py.char_in c "0123456789ABCDEF".

(** [_normalize_hex] *)
Definition _normalize_hex (value : string) : string :=
  match value with
  | EmptyString => value
  | String _ _ =>
      let value := Py.upper (Py.strip value) in
      if negb (Py.startswith "0X" value)
      then if Py.all_chars is_upper_hex value
           then "0x" ++ value
           else value
      else value
  end.

(** [_normalize_service_id] *)
Definition _normalize_service_id (service_id : string) : string :=
  match service_id with
  | EmptyString => "0x00"
  | String _ _ =>
      let service_id := Py.upper (Py.strip service_id) in
      if negb (Py.startswith "0X" service_id)
      then if Py.all_chars is_upper_hex service_id
           then "0x" ++ service_id
           else service_id
      else service_id
  end.

(** [_get_service_name] *)
Definition _get_service_name (service_id : string) (original_name : option string)
    : string :=
  match uds_services !! service_id with
  | Some n => n
  | None => or_else original_name ("Service_" ++ Py.remove_all "0x" service_id)
  end.

(** [_get_positive_response_id]: the bare [except:] catches whatever
    [int] raises. *)
Definition _get_positive_response_id (service_id : string) : string :=
  match Py.int16 service_id with
  | Ok request_id =>
      let response_id := request_id + 0x40 in
      "0x" ++ Py.format_0X 2 response_id
  | Raise _ => "0x7F"
  end.

Definition ServiceId_param (v : string) : gmap string pyval :=
  {[ "type" := PyStr "ServiceId"; "name" := PyStr "ServiceId";
     "value" := PyStr v ]}.

Definition DataIdentifier_param (v : pyval) : gmap string pyval :=
  {[ "type" := PyStr "DataIdentifier"; "name" := PyStr "DID"; "value" := v ]}.

Definition Data_param (did_id : string) : gmap string pyval :=
  {[ "type" := PyStr "Data";
     "name" := PyStr ("DID_" ++ did_id ++ "_Data");
     "structure_ref" := PyStr ("DOP.DID_" ++ did_id) ]}.

(** [param.get('type') == 'DataIdentifier'] *)
Definition is_DataIdentifier (param : gmap string pyval) : bool :=
  bool_decide (dict_get param "type" = PyStr "DataIdentifier").

(** The request loop of [_convert_service] (lines 135-141). *)
Fixpoint request_loop (params : list (gmap string pyval))
    : list (gmap string pyval) :=
  match params with
  | [] => []
  | param :: rest =>
      if is_DataIdentifier param
      then DataIdentifier_param (dict_get param "value") :: request_loop rest
      else request_loop rest
  end.

(** The response loop of [_convert_service] (lines 155-168). *)
Fixpoint response_loop (params : list (gmap string pyval))
    : result (list (gmap string pyval)) :=
  match params with
  | [] => mret []
  | param :: rest =>
      if is_DataIdentifier param
      then
        did_id ← get_replace param "value" "0x";
        tail ← response_loop rest;
        mret (DataIdentifier_param (dict_get param "value")
              :: Data_param did_id :: tail)
      else response_loop rest
  end.

(** [_convert_service].  Nothing here is caught: an exception leaves the
    function. *)
Definition _convert_service (service : Service) : result (option ODXService) :=
  if negb (truthy (id service)) || negb (truthy (name service))
  then mret None
  else
    let service_id := _normalize_service_id (or_else (id service) "") in
    let service_name := _get_service_name service_id (name service) in
    let request_params := ServiceId_param service_id
                          :: request_loop (request_params service) in
    let positive_response_id := _get_positive_response_id service_id in
    tail ← response_loop (response_params service);
    let response_params := ServiceId_param positive_response_id :: tail in
    mret (Some {| odx_id := Py.remove_all " " service_name;
                  odx_name := service_name;
                  service_id := service_id;
                  odx_request_params := request_params;
                  odx_response_params := response_params;
                  odx_description :=
                    or_else (description service) (service_name ++ " service") |}).

(** [_convert_data_identifier] *)
Definition _convert_data_identifier (did : DataIdentifier)
    : option ODXDataIdentifier :=
  if negb (truthy (identifier did)) || negb (truthy (did_name did))
  then None
  else
    let did_id := _normalize_hex (or_else (identifier did) "") in
    let did_name :=
      or_else (did_name did) ("DID_" ++ Py.remove_all "0x" did_id) in
    let data_type := or_else (encoding did) "BYTEFIELD" in
    let length :=
      match length did with
      | Some n => if n =? 0 then 1 else n
      | None => 1
      end in
    Some {| odx_did_id := "DID_" ++ Py.remove_all "0x" did_id;
            odx_identifier := did_id;
            odx_did_name := did_name;
            odx_did_description :=
              or_else (did_description did) ("Data Identifier " ++ did_id);
            data_type := data_type;
            odx_length := length;
            structure := signals did |}.

Definition opt_val (o : option string) : pyval :=
  match o with
  | Some s => PyStr s
  | None => PyNone
  end.

(** [_convert_communication_params] *)
Definition _convert_communication_params (comm_params : option CommunicationParams)
    : gmap string pyval :=
  match comm_params with
  | None => ∅
  | Some p =>
      {[ "physical_request_id" := opt_val (phys_req_id p);
         "physical_response_id" := opt_val (phys_res_id p);
         "functional_request_id" := opt_val (func_req_id p);
         "p2_timeout" := opt_val (p2_timeout p);
         "p2_star_timeout" := opt_val (p2_star_timeout p);
         "s3_timeout" := opt_val (s3_timeout p) ]}
  end.

(** The service loop of [_convert_diagnostic_data] (lines 93-97). *)
Fixpoint convert_services (l : list Service) : result (list ODXService) :=
  match l with
  | [] => mret []
  | service :: rest =>
      odx_service ← _convert_service service;
      tail ← convert_services rest;
      mret (match odx_service with
            | Some o => o :: tail
            | None => tail
            end)
  end.

(** [_convert_diagnostic_data] *)
Definition _convert_diagnostic_data (data : DiagnosticData) (ecu_name : string)
    : result ODXDocument :=
  odx_services ← convert_services (services data);
  let odx_dids := omap _convert_data_identifier (data_identifiers data) in
  mret {| odx_services := odx_services;
          odx_data_identifiers := odx_dids;
          odx_communication_params :=
            _convert_communication_params (communication_params data);
          odx_ecu_name := ecu_name;
          odx_version := "1.0.0" |}.

End Mapper.

(* ===================================================================== *)
(** ** [simple_webapp.py]: the file-name filter [allowed_file] *)
(* ===================================================================== *)

Module WebApp.

Definition lower_char (c : ascii) : ascii :=
  if (65 <=? Py.code c) && (Py.code c <=? 90)
  then ascii_of_N (Z.to_N (Py.code c + 32))
  else c.

(** [s.lower()] *)
Fixpoint lower (s : string) : string :=
  match s with
  | String c s' => String (lower_char c) (lower s')
  | EmptyString => EmptyString
  end.

(** [s.rsplit('.', 1)] for a text that holds a dot: the part before the
    last dot and the part after it; [None] stands for the one-element list
    of a text without dot. *)
Fixpoint rsplit_dot (s : string) : option (string * string) :=
  match s with
  | EmptyString => None
  | String c s' =>
      match rsplit_dot s' with
      | Some (b, e) => Some (String c b, e)
      | None => if Ascii.eqb c "." then Some (EmptyString, s') else None
      end
  end.

(** [ALLOWED_EXTENSIONS] *)
Definition ALLOWED_EXTENSIONS : gset string := {[ "cdd"; "xml" ]}.

(** [allowed_file]: [and] evaluates the index [[1]] only when the name
    holds a dot. *)
Definition allowed_file (filename : string) : bool :=
  Py.char_in "." filename
  && match rsplit_dot filename with
     | Some (_, ext) => bool_decide (lower ext ∈ ALLOWED_EXTENSIONS)
     | None => false
     end.

End WebApp.

(* ===================================================================== *)
(** ** Vocabulary of the statements *)
(* ===================================================================== *)

Module Spec.
Import Mapper.

(** A hex digit of either case, as the specification speaks of them. *)
Definition is_hex_digit (c : ascii) : bool :=
  Py.char_in c "0123456789abcdefABCDEF".

Fixpoint range_from (k : nat) (lo : Z) : list Z :=
  match k with
  | O => []
  | S k' => lo :: range_from k' (lo + 1)
  end.

Definition range (lo hi : Z) : list Z := range_from (Z.to_nat (hi - lo)) lo.

Definition result_is (r : result Z) (n : Z) : bool :=
  match r with
  | Ok m => m =? n
  | Raise _ => false
  end.

(** Each hex digit is an upper-case hex character that [int] reads back
    as the digit. *)
Definition check_digit (d : Z) : bool :=
  Mapper.is_upper_hex (Py.hex_char d)
  && negb (Ascii.eqb (Py.hex_char d) "_")
  && (Py.digit_value (Py.hex_char d) =? d).

(** The four digits of a 16-bit number, most significant first. *)
Definition four_digits (n : Z) : string :=
  String (Py.hex_char (n / 16 / 16 / 16))
    (String (Py.hex_char (n / 16 / 16 mod 16))
      (String (Py.hex_char (n / 16 mod 16))
        (String (Py.hex_char (n mod 16)) ""))).

Definition check_02X (n : Z) : bool :=
  (String.length (Py.format_0X 2 n) =? 2)%nat
  && Py.all_chars Mapper.is_upper_hex (Py.format_0X 2 n)
  && result_is (Py.int16 ("0x" ++ Py.format_0X 2 n)) n.

(** The text [replace] works on in the response loop: the value of the
    parameter, [''] when it has none. *)
Definition value_text (v : pyval) : string :=
  match v with
  | PyStr s => s
  | _ => ""
  end.

(** What the response loop emits for one [DataIdentifier] parameter. *)
Definition did_pair (param : gmap string pyval) : list (gmap string pyval) :=
  [ DataIdentifier_param (dict_get param "value");
    Data_param (Py.remove_all "0x" (value_text (dict_get param "value"))) ].

(** A decimal digit. *)
Definition is_decimal_digit (c : ascii) : bool := Py.char_in c "0123456789".

(** A character [int] reads as a digit in the given base. *)
Definition is_digit_in (base : Z) (c : ascii) : bool :=
  negb (Ascii.eqb c "_") && (Py.digit_value c <? base).

(** A record kept by the mapper: both identity fields are true values. *)
Definition service_kept (s : Service) : bool := truthy (id s) && truthy (name s).

Definition did_kept (d : DataIdentifier) : bool :=
  truthy (identifier d) && truthy (did_name d).

(** A [DataIdentifier] parameter whose ['value'] entry is present and is
    not a string. *)
Definition bad_value (p : gmap string pyval) : bool :=
  is_DataIdentifier p
  && match p !! "value" with
     | Some (PyStr _) | None => false
     | Some _ => true
     end.

(** The description text and the name text a service element offers. *)
Definition desc_text (service_elem : ET.Element) : option string :=
  match ET.find_path "DESC" "TUV" service_elem with
  | Some d => ET.text d
  | None => None
  end.

Definition name_text (service_elem : ET.Element) : option string :=
  match Parser.locate_name service_elem with
  | Some x => ET.text x
  | None => None
  end.

(** What one pass over a root element adds to the two lists. *)
Definition extracted_dids (root : ET.Element) : list Parser.CDDDID :=
  match ET.find_desc "DIDS" root with
  | Some dids_section => omap Parser._parse_did (ET.findall_child "DID" dids_section)
  | None => []
  end.

Definition extracted_services (root : ET.Element) : list Parser.CDDProtocolService :=
  match ET.find_desc "PROTOCOLSERVICES" root with
  | Some services_section =>
      omap Parser._parse_protocol_service
           (ET.findall_child "PROTOCOLSERVICE" services_section)
  | None => []
  end.

(** The elements [_parse_service_message] turns into components, in the
    order of its three loops. *)
Definition component_elems (msg_elem : ET.Element) : list ET.Element :=
  (ET.findall_desc "CONSTCOMP" msg_elem
   ++ ET.findall_desc "STATICCOMP" msg_elem
   ++ ET.findall_desc "SIMPLEPROXYCOMP" msg_elem)%list.

(** A text that does not begin with white space. *)
Definition clean_head (s : string) : Prop :=
  match s with
  | String c _ => Py.is_str_space c = false
  | EmptyString => True
  end.

End Spec.

(* ===================================================================== *)
(** ** Sample inputs *)
(* ===================================================================== *)

Module Samples.
Import ET Mapper.

(** A localized text node, with and without a language attribute. *)
Definition tuv (lang txt : string) : Element :=
  mkElement "TUV" {[ xml_lang := lang ]} (Some txt) [].

Definition plain_tuv (txt : string) : Element :=
  mkElement "TUV" ∅ (Some txt) [].

Definition sid_comp (v : string) : Element :=
  mkElement "CONSTCOMP" {[ "spec" := "sid"; "v" := v ]} None [].

(** A service with a name and no description. *)
Definition session_control_elem : Element :=
  mkElement "PROTOCOLSERVICE" {[ "id" := "svc_10" ]} None
    [ mkElement "NAME" ∅ None [ plain_tuv "DiagnosticSessionControl" ] ].

(** Named services without description whose request holds the SID
    component, with a decimal and with a non-numeric value. *)
Definition sid_16_elem : Element :=
  mkElement "PROTOCOLSERVICE" {[ "id" := "svc_10" ]} None
    [ mkElement "NAME" ∅ None [ plain_tuv "Session" ];
      mkElement "REQ" ∅ None [ sid_comp "16" ] ].

Definition sid_text_elem : Element :=
  mkElement "PROTOCOLSERVICE" {[ "id" := "svc_10" ]} None
    [ mkElement "NAME" ∅ None [ plain_tuv "Session" ];
      mkElement "REQ" ∅ None [ sid_comp "sixteen" ] ].

(** The same two services with a description text. *)
Definition described_sid_16_elem : Element :=
  mkElement "PROTOCOLSERVICE" {[ "id" := "svc_10" ]} None
    [ mkElement "NAME" ∅ None [ plain_tuv "Session" ];
      mkElement "DESC" ∅ None [ plain_tuv "Switches the session" ];
      mkElement "REQ" ∅ None [ sid_comp "16" ] ].

Definition described_sid_text_elem : Element :=
  mkElement "PROTOCOLSERVICE" {[ "id" := "svc_10" ]} None
    [ mkElement "NAME" ∅ None [ plain_tuv "Session" ];
      mkElement "DESC" ∅ None [ plain_tuv "Switches the session" ];
      mkElement "REQ" ∅ None [ sid_comp "sixteen" ] ].

(** A described service whose only SID component sits in the positive
    response; the request holds another constant. *)
Definition response_sid_elem : Element :=
  mkElement "PROTOCOLSERVICE" {[ "id" := "svc_10" ]} None
    [ mkElement "NAME" ∅ None [ plain_tuv "Session" ];
      mkElement "DESC" ∅ None [ plain_tuv "Switches the session" ];
      mkElement "REQ" ∅ None
        [ mkElement "CONSTCOMP" {[ "spec" := "sub"; "v" := "1" ]} None [] ];
      mkElement "POS" ∅ None [ sid_comp "80" ] ].

(** A service and a DID whose names are not under [NAME] and come in two
    languages, German first. *)
Definition localized_service_elem : Element :=
  mkElement "PROTOCOLSERVICE" {[ "id" := "svc_10" ]} None
    [ mkElement "LABEL" ∅ None
        [ tuv "de-DE" "Sitzungssteuerung"; tuv "en-US" "Session control" ];
      mkElement "DESC" ∅ None [ plain_tuv "Switches the session" ] ].

Definition localized_did_elem : Element :=
  mkElement "DID" {[ "id" := "did_1"; "n" := "61840" ]} None
    [ mkElement "LABEL" ∅ None
        [ tuv "de-DE" "Kennung"; tuv "en-US" "Identifier" ] ].

(** A service whose name is not under [NAME] and has one language. *)
Definition labelled_service_elem : Element :=
  mkElement "PROTOCOLSERVICE" {[ "id" := "svc_10" ]} None
    [ mkElement "LABEL" ∅ None [ tuv "en-US" "Session control" ];
      mkElement "DESC" ∅ None [ plain_tuv "Switches the session" ] ].

(** DIDs with and without the [n] attribute, and a document holding the
    latter. *)
Definition numbered_did_elem : Element :=
  mkElement "DID" {[ "id" := "did_1"; "n" := "65168" ]} None
    [ mkElement "NAME" ∅ None [ plain_tuv "Serial number" ] ].

Definition unnumbered_did_elem : Element :=
  mkElement "DID" {[ "id" := "did_2" ]} None [].

Definition unnumbered_root : Element :=
  mkElement "CANDELA" ∅ None
    [ mkElement "ECUDOC" ∅ None
        [ mkElement "DIDS" ∅ None [ unnumbered_did_elem ] ] ].

(** A service reading the DID [0xFE90]. *)
Definition read_did_service : Service :=
  {| id := Some "22"; name := Some "ReadDataByIdentifier";
     description := None;
     request_params :=
       [ {[ "type" := PyStr "DataIdentifier"; "value" := PyStr "0xFE90" ]} ];
     response_params :=
       [ {[ "type" := PyStr "DataIdentifier"; "value" := PyStr "0xFE90" ]} ] |}.

(** A service record and a DID record with no identity field at all. *)
Definition anonymous_service : Service :=
  {| id := None; name := None; description := Some "an unnamed service";
     request_params := []; response_params := [] |}.

Definition anonymous_did : DataIdentifier :=
  {| identifier := None; did_name := None; did_description := None;
     length := None; encoding := None; signals := [] |}.

Definition anonymous_data : DiagnosticData :=
  {| services := [anonymous_service]; data_identifiers := [anonymous_did];
     communication_params := None |}.

(** A service whose ID is written with the [0x] prefix. *)
Definition prefixed_service : Service :=
  {| id := Some "0x22"; name := Some "Read data";
     description := None; request_params := []; response_params := [] |}.

(** A DID whose identifier is written in lower-case hex without prefix. *)
Definition serial_number_did : DataIdentifier :=
  {| identifier := Some "f18c"; did_name := Some "Serial number";
     did_description := None; length := None; encoding := None;
     signals := [] |}.

(** A service whose response carries the normalised identifier of
    [serial_number_did]. *)
Definition read_serial_number_service : Service :=
  {| id := Some "22"; name := Some "ReadDataByIdentifier";
     description := None; request_params := [];
     response_params :=
       [ {[ "type" := PyStr "DataIdentifier"; "value" := PyStr "0xF18C" ]} ] |}.

(** A service with a response parameter whose value is a number, and
    documents with and without it. *)
Definition faulty_service : Service :=
  {| id := Some "22"; name := Some "Read data"; description := None;
     request_params := [];
     response_params :=
       [ {[ "type" := PyStr "DataIdentifier"; "value" := PyInt 61836 ]} ] |}.

Definition faulty_data : DiagnosticData :=
  {| services := [read_did_service; faulty_service];
     data_identifiers := [serial_number_did];
     communication_params := None |}.

Definition mixed_data : DiagnosticData :=
  {| services := [read_did_service; anonymous_service; prefixed_service];
     data_identifiers := [anonymous_did; serial_number_did];
     communication_params := None |}.

(** DIDs whose number is written in decimal and in hex, the first with a
    structure of two data objects and a stray one outside it. *)
Definition structured_did_elem : ET.Element :=
  ET.mkElement "DID" {[ "id" := "did_3"; "n" := "61836" ]} None
    [ ET.mkElement "NAME" ∅ None [ plain_tuv "Serial number" ];
      ET.mkElement "DATAOBJ" {[ "id" := "stray" ]} None [];
      ET.mkElement "STRUCTURE" ∅ None
        [ ET.mkElement "DATAOBJ" {[ "id" := "obj_1"; "dtref" := "ascii" ]} None [];
          ET.mkElement "GROUP" ∅ None
            [ ET.mkElement "DATAOBJ" {[ "id" := "obj_2" ]} None [] ] ] ].

Definition hex_numbered_did_elem : ET.Element :=
  ET.mkElement "DID" {[ "id" := "did_4"; "n" := "0xF18C" ]} None [].

(** A DID whose [n] is a run of 4301 zeros. *)
Definition long_numbered_did_elem : ET.Element :=
  ET.mkElement "DID" {[ "id" := "did_5"; "n" := Py.zeros 4301 ]} None [].

End Samples.

(* ===================================================================== *)
(** ** Facts about the built-ins *)
(* ===================================================================== *)

Module PyFacts.
Import Spec.

(** The models against the values Python gives. *)
Example int_16 : Py.int "16" = Ok 16.
Proof. reflexivity. Qed.

Example int_padded : Py.int " +1_6 " = Ok 16.
Proof. reflexivity. Qed.

Example int_0x10 : Py.int "0x10" = Raise ValueError.
Proof. reflexivity. Qed.

Example int_empty : Py.int "" = Raise ValueError.
Proof. reflexivity. Qed.

Example int16_0x22 : Py.int16 "0x22" = Ok 34.
Proof. reflexivity. Qed.

Example int16_upper_prefix : Py.int16 "0X22" = Ok 34.
Proof. reflexivity. Qed.

Example int16_negative : Py.int16 "-22" = Ok (-34).
Proof. reflexivity. Qed.

Example int16_bare_prefix : Py.int16 "0x" = Raise ValueError.
Proof. reflexivity. Qed.

Example int16_double_underscore : Py.int16 "2__2" = Raise ValueError.
Proof. reflexivity. Qed.

Example format_65168 : Py.format_0X 4 65168 = "FE90".
Proof. reflexivity. Qed.

Example format_wide : Py.format_0X 2 256 = "100".
Proof. reflexivity. Qed.

Example format_negative : Py.format_0X 4 (-5) = "-005".
Proof. reflexivity. Qed.

Example strip_upper : Py.upper (Py.strip "  0xfe90 ") = "0XFE90".
Proof. reflexivity. Qed.

Example replace_every_occurrence : Py.remove_all "0x" "0x0x12" = "12".
Proof. reflexivity. Qed.

Example replace_is_case_sensitive : Py.remove_all "0x" "0XFE90" = "0XFE90".
Proof. reflexivity. Qed.

Example contains_fragment : Py.contains "ECUReset" "Service ECUReset (hard)" = true.
Proof. reflexivity. Qed.

Ltac char_cases c :=
  destruct c as [[|] [|] [|] [|] [|] [|] [|] [|]];
  vm_compute; intros; solve [reflexivity | discriminate | congruence].

Lemma hex_digit_upper c :
  is_hex_digit c = true -> Mapper.is_upper_hex (Py.upper_char c) = true.
Proof. char_cases c. Qed.

Lemma hex_digit_not_space c :
  is_hex_digit c = true -> Py.is_str_space c = false.
Proof. char_cases c. Qed.

Lemma hex_digit_upper_not_X c :
  is_hex_digit c = true -> Ascii.eqb "X" (Py.upper_char c) = false.
Proof. char_cases c. Qed.

Lemma hex_digit_not_x c :
  is_hex_digit c = true -> Ascii.eqb "x" c = false.
Proof. char_cases c. Qed.

Lemma all_chars_impl (p q : ascii -> bool) s :
  (forall c, p c = true -> q c = true) ->
  Py.all_chars p s = true -> Py.all_chars q s = true.
Proof.
  intros Hpq. induction s as [|c s IH]; simpl; [reflexivity|].
  rewrite !andb_true_iff. intros [Hc Hs]. split; auto.
Qed.

Section Strip.
Variable sp : ascii -> bool.

Lemma lstrip_no_space s :
  Py.all_chars (fun c => negb (sp c)) s = true -> Py.lstrip_with sp s = s.
Proof.
  destruct s as [|c s]; simpl; [reflexivity|].
  rewrite andb_true_iff, negb_true_iff. intros [-> _]. reflexivity.
Qed.

Lemma rstrip_no_space s :
  Py.all_chars (fun c => negb (sp c)) s = true -> Py.rstrip_with sp s = s.
Proof.
  induction s as [|c s IH]; simpl; [reflexivity|].
  rewrite andb_true_iff, negb_true_iff. intros [Hc Hs].
  rewrite (IH Hs), Hc. destruct s; reflexivity.
Qed.

End Strip.

Lemma strip_no_space s :
  Py.all_chars (fun c => negb (Py.is_str_space c)) s = true -> Py.strip s = s.
Proof.
  intros H. unfold Py.strip.
  rewrite (lstrip_no_space _ _ H). apply rstrip_no_space, H.
Qed.

Lemma strip_hex s : Py.all_chars is_hex_digit s = true -> Py.strip s = s.
Proof.
  intros H. apply strip_no_space. revert H. apply all_chars_impl.
  intros c Hc. rewrite (hex_digit_not_space c Hc). reflexivity.
Qed.

Lemma upper_hex s :
  Py.all_chars is_hex_digit s = true ->
  Py.all_chars Mapper.is_upper_hex (Py.upper s) = true.
Proof.
  induction s as [|c s IH]; simpl; [reflexivity|].
  rewrite !andb_true_iff. intros [Hc Hs]. split; [apply hex_digit_upper|]; auto.
Qed.

Lemma upper_hex_no_prefix s :
  Py.all_chars is_hex_digit s = true -> Py.startswith "0X" (Py.upper s) = false.
Proof.
  destruct s as [|a [|b s]];
    cbn [Py.startswith Py.upper Py.all_chars]; try reflexivity.
  - intros _. apply andb_false_r.
  - rewrite !andb_true_iff. intros (_ & Hb & _).
    rewrite (hex_digit_upper_not_X b Hb). apply andb_false_r.
Qed.

(** Removing ["0x"] from a text that holds no [x] changes nothing. *)
Lemma remove_0x_no_x fuel s :
  Py.all_chars (fun c => negb (Ascii.eqb "x" c)) s = true ->
  Py.remove_all_fuel fuel "0x" s = s.
Proof.
  revert s. induction fuel as [|fuel IH]; intros s; [reflexivity|].
  destruct s as [|a s]; [reflexivity|].
  cbn [Py.all_chars Py.remove_all_fuel]. rewrite andb_true_iff. intros [Ha Hs].
  assert (Hsw : Py.startswith "0x" (String a s) = false).
  { destruct s as [|b s]; cbn [Py.startswith]; [apply andb_false_r|].
    cbn [Py.all_chars] in Hs. apply andb_true_iff in Hs as [Hb _].
    apply negb_true_iff in Hb. rewrite Hb. apply andb_false_r. }
  rewrite Hsw, (IH s Hs). reflexivity.
Qed.

Lemma hex_no_x s :
  Py.all_chars is_hex_digit s = true ->
  Py.all_chars (fun c => negb (Ascii.eqb "x" c)) s = true.
Proof.
  apply all_chars_impl. intros c Hc.
  rewrite (hex_digit_not_x c Hc). reflexivity.
Qed.

(** For a hex value, [replace('0x', '')] removes exactly its prefix. *)
Lemma remove_0x_prefixed h :
  Py.all_chars is_hex_digit h = true -> Py.remove_all "0x" ("0x" ++ h) = h.
Proof.
  intros H. change ("0x" ++ h) with (String "0" (String "x" h)).
  unfold Py.remove_all.
  change (Py.remove_all_fuel (String.length (String "0" (String "x" h))) "0x"
            (String "0" (String "x" h)))
    with (Py.remove_all_fuel (S (String.length h)) "0x" h).
  apply remove_0x_no_x, hex_no_x, H.
Qed.

Lemma remove_0x_unprefixed h :
  Py.all_chars is_hex_digit h = true -> Py.remove_all "0x" h = h.
Proof. intros H. apply remove_0x_no_x, hex_no_x, H. Qed.

(** Checking a boolean property on a whole interval of integers. *)
Lemma in_range_from k : forall lo n,
  lo <= n < lo + Z.of_nat k -> In n (range_from k lo).
Proof.
  induction k as [|k IH]; intros lo n Hn; [lia|].
  destruct (Z.eq_dec n lo) as [->|Hne]; [left; reflexivity|].
  right. apply IH. lia.
Qed.

Lemma forallb_range (P : Z -> bool) (lo hi : Z) :
  forallb P (range lo hi) = true ->
  forall n, lo <= n < hi -> P n = true.
Proof.
  intros H n Hn. rewrite forallb_forall in H. apply H.
  apply in_range_from. lia.
Qed.

Lemma result_is_true r n : result_is r n = true -> r = Ok n.
Proof.
  destruct r as [m|e]; simpl; [|discriminate].
  intros H. apply Z.eqb_eq in H. congruence.
Qed.

(** *** [04X] on the 16-bit range *)

Lemma hex_char_digit d :
  0 <= d < 16 ->
  Mapper.is_upper_hex (Py.hex_char d) = true
  /\ Ascii.eqb (Py.hex_char d) "_" = false
  /\ Py.digit_value (Py.hex_char d) = d.
Proof.
  intros Hd.
  assert (H : forallb check_digit (range 0 16) = true) by reflexivity.
  pose proof (forallb_range check_digit 0 16 H d Hd) as Hc.
  unfold check_digit in Hc.
  apply andb_true_iff in Hc as [Hc H3]. apply andb_true_iff in Hc as [H1 H2].
  apply negb_true_iff in H2. apply Z.eqb_eq in H3. auto.
Qed.

Lemma log2_fuel n k : 0 <= k -> 2 ^ k <= n -> (Z.to_nat k <= Z.to_nat (Z.log2 n))%nat.
Proof.
  intros Hk Hn. apply Z2Nat.inj_le; [lia | apply Z.log2_nonneg |].
  apply Z.log2_le_pow2; [|exact Hn].
  pose proof (Z.pow_pos_nonneg 2 k ltac:(lia) Hk). lia.
Qed.

Lemma format_04X_four_digits n :
  0 <= n < 65536 -> Py.format_0X 4 n = four_digits n.
Proof.
  intros Hn. unfold Py.format_0X, Py.hex_upper, four_digits.
  assert (Hneg : (n <? 0) = false) by (apply Z.ltb_ge; lia). rewrite Hneg.
  destruct (Z_lt_dec n 16) as [H1|H1].
  { (* one digit *)
    cbn [Py.hex_digits].
    assert (E0 : n / 16 = 0) by (apply Z.div_small; lia).
    rewrite E0. reflexivity. }
  assert (E1 : (n / 16 =? 0) = false)
    by (apply Z.eqb_neq; Z.div_mod_to_equations; lia).
  pose proof (log2_fuel n 4 ltac:(lia) ltac:(simpl; lia)) as F4.
  destruct (Z_lt_dec n 256) as [H2|H2].
  { (* two digits *)
    destruct (Z.to_nat (Z.log2 n)) as [|f] eqn:Ef; [simpl in F4; lia|].
    cbn [Py.hex_digits]. rewrite E1.
    assert (E2 : n / 16 / 16 = 0)
      by (Z.div_mod_to_equations; lia).
    rewrite E2. cbn [Z.eqb Z.div Z.modulo].
    rewrite (Z.mod_small (n / 16) 16) by (Z.div_mod_to_equations; lia).
    reflexivity. }
  assert (E2 : (n / 16 / 16 =? 0) = false)
    by (apply Z.eqb_neq; Z.div_mod_to_equations; lia).
  pose proof (log2_fuel n 8 ltac:(lia) ltac:(simpl; lia)) as F8.
  destruct (Z_lt_dec n 4096) as [H3|H3].
  { (* three digits *)
    destruct (Z.to_nat (Z.log2 n)) as [|[|f]] eqn:Ef;
      [simpl in F8; lia | simpl in F8; lia |].
    cbn [Py.hex_digits]. rewrite E1, E2.
    assert (E3 : n / 16 / 16 / 16 = 0)
      by (Z.div_mod_to_equations; lia).
    rewrite E3.
    rewrite (Z.mod_small (n / 16 / 16) 16) by (Z.div_mod_to_equations; lia).
    reflexivity. }
  (* four digits *)
  assert (E3 : (n / 16 / 16 / 16 =? 0) = false)
    by (apply Z.eqb_neq; Z.div_mod_to_equations; lia).
  pose proof (log2_fuel n 12 ltac:(lia) ltac:(simpl; lia)) as F12.
  destruct (Z.to_nat (Z.log2 n)) as [|[|[|f]]] eqn:Ef;
    [simpl in F12; lia | simpl in F12; lia | simpl in F12; lia |].
  cbn [Py.hex_digits]. rewrite E1, E2, E3.
  assert (E4 : n / 16 / 16 / 16 / 16 = 0)
    by (Z.div_mod_to_equations; lia).
  rewrite E4.
  rewrite (Z.mod_small (n / 16 / 16 / 16) 16) by (Z.div_mod_to_equations; lia).
  reflexivity.
Qed.

Lemma scan_digit_step base prev acc k c s :
  Ascii.eqb c "_" = false ->
  (Py.digit_value c <? base) = true ->
  Py.scan_digits base prev acc k (String c s)
  = Py.scan_digits base false (acc * base + Py.digit_value c) (S k) s.
Proof. intros Hu Hd. cbn [Py.scan_digits]. rewrite Hu, Hd. reflexivity. Qed.

(** After the prefix [0x], [int(s, 16)] is the digit scan of the rest
    when the rest begins with a hex digit. *)
Lemma int16_prefixed c s :
  (Py.digit_value c <? 16) = true ->
  Py.int16 (String "0" (String "x" (String c s)))
  = match Py.scan_digits 16 false 0 0%nat (String c s) with
    | None => Raise ValueError
    | Some (v, k, rest) =>
        if (k =? 0)%nat then Raise ValueError
        else match Py.lstrip_with Py.is_c_space rest with
             | EmptyString => Ok v
             | String _ _ => Raise ValueError
             end
    end.
Proof.
  destruct c as [[|] [|] [|] [|] [|] [|] [|] [|]];
    (intros H; vm_compute in H; try discriminate H); reflexivity.
Qed.

(** On the 16-bit range [04X] gives exactly four upper-case hex digits,
    and reading ["0x"] and the digits back in base 16 gives the number
    again. *)
Lemma format_04X_uint16 n :
  0 <= n < 65536 ->
  String.length (Py.format_0X 4 n) = 4%nat
  /\ Py.all_chars Mapper.is_upper_hex (Py.format_0X 4 n) = true
  /\ Py.int16 ("0x" ++ Py.format_0X 4 n) = Ok n.
Proof.
  intros Hn. rewrite (format_04X_four_digits n Hn). unfold four_digits.
  destruct (hex_char_digit (n / 16 / 16 / 16)) as (U3 & N3 & D3);
    [Z.div_mod_to_equations; lia|].
  destruct (hex_char_digit (n / 16 / 16 mod 16)) as (U2 & N2 & D2);
    [Z.div_mod_to_equations; lia|].
  destruct (hex_char_digit (n / 16 mod 16)) as (U1 & N1 & D1);
    [Z.div_mod_to_equations; lia|].
  destruct (hex_char_digit (n mod 16)) as (U0 & N0 & D0);
    [Z.div_mod_to_equations; lia|].
  split; [reflexivity|]. split.
  { cbn [Py.all_chars]. rewrite U3, U2, U1, U0. reflexivity. }
  change ("0x" ++ ?t) with (String "0" (String "x" t)).
  assert (L : forall d, 0 <= d < 16 -> (Py.digit_value (Py.hex_char d) <? 16) = true).
  { intros d Hd. destruct (hex_char_digit d Hd) as (_ & _ & ->).
    apply Z.ltb_lt. lia. }
  rewrite int16_prefixed by (apply L; Z.div_mod_to_equations; lia).
  rewrite !scan_digit_step
    by (assumption || (apply L; Z.div_mod_to_equations; lia)).
  cbn [Py.scan_digits Nat.eqb Py.lstrip_with]. rewrite D3, D2, D1, D0.
  f_equal. Z.div_mod_to_equations. lia.
Qed.

Lemma format_02X_byte n : 0 <= n < 256 -> check_02X n = true.
Proof.
  assert (H : forallb check_02X (range 0 256) = true)
    by (vm_compute; reflexivity).
  exact (forallb_range check_02X 0 256 H n).
Qed.

End PyFacts.

(* ===================================================================== *)
(** ** Properties of the CDD-to-ODX mapper *)
(* ===================================================================== *)

Module MapperProps.
Import Mapper Spec Samples PyFacts.

(** *** Identifier normalisation *)

Lemma normalize_hex_unfold (c : ascii) (s : string) :
  _normalize_hex (String c s)
  = let u := Py.upper (Py.strip (String c s)) in
    if negb (Py.startswith "0X" u)
    then if Py.all_chars is_upper_hex u then "0x" ++ u else u
    else u.
Proof. reflexivity. Qed.

Lemma normalize_service_id_nonempty (s : string) :
  s <> "" -> _normalize_service_id s = _normalize_hex s.
Proof. destruct s; [congruence | reflexivity]. Qed.

(** *** The parameter dictionaries *)

Lemma ServiceId_param_type v : dict_get (ServiceId_param v) "type" = PyStr "ServiceId".
Proof. unfold dict_get, ServiceId_param. by rewrite lookup_insert_eq. Qed.

Lemma DataIdentifier_param_type v :
  dict_get (DataIdentifier_param v) "type" = PyStr "DataIdentifier".
Proof. unfold dict_get, DataIdentifier_param. by rewrite lookup_insert_eq. Qed.

Lemma DataIdentifier_param_value v : dict_get (DataIdentifier_param v) "value" = v.
Proof.
  unfold dict_get, DataIdentifier_param.
  rewrite !lookup_insert_ne by discriminate. by rewrite lookup_singleton_eq.
Qed.

Lemma Data_param_type d : dict_get (Data_param d) "type" = PyStr "Data".
Proof. unfold dict_get, Data_param. by rewrite lookup_insert_eq. Qed.

Lemma Data_param_structure_ref d :
  dict_get (Data_param d) "structure_ref" = PyStr ("DOP.DID_" ++ d).
Proof.
  unfold dict_get, Data_param.
  rewrite !lookup_insert_ne by discriminate. by rewrite lookup_singleton_eq.
Qed.

Lemma ServiceId_param_name v : dict_get (ServiceId_param v) "name" = PyStr "ServiceId".
Proof.
  unfold dict_get, ServiceId_param.
  rewrite lookup_insert_ne by discriminate. by rewrite lookup_insert_eq.
Qed.

Lemma ServiceId_param_value v : dict_get (ServiceId_param v) "value" = PyStr v.
Proof.
  unfold dict_get, ServiceId_param.
  rewrite !lookup_insert_ne by discriminate. by rewrite lookup_singleton_eq.
Qed.

Lemma DataIdentifier_param_name v :
  dict_get (DataIdentifier_param v) "name" = PyStr "DID".
Proof.
  unfold dict_get, DataIdentifier_param.
  rewrite lookup_insert_ne by discriminate. by rewrite lookup_insert_eq.
Qed.

Lemma Data_param_name d :
  dict_get (Data_param d) "name" = PyStr ("DID_" ++ d ++ "_Data").
Proof.
  unfold dict_get, Data_param.
  rewrite lookup_insert_ne by discriminate. by rewrite lookup_insert_eq.
Qed.

Lemma is_DataIdentifier_true p :
  is_DataIdentifier p = true <-> dict_get p "type" = PyStr "DataIdentifier".
Proof. unfold is_DataIdentifier. apply bool_decide_eq_true. Qed.

Lemma ServiceId_param_not_did v : is_DataIdentifier (ServiceId_param v) = false.
Proof. unfold is_DataIdentifier. rewrite ServiceId_param_type. reflexivity. Qed.

Lemma Data_param_not_did d : is_DataIdentifier (Data_param d) = false.
Proof. unfold is_DataIdentifier. rewrite Data_param_type. reflexivity. Qed.

Lemma get_replace_value param x :
  get_replace param "value" "0x" = Ok x ->
  x = Py.remove_all "0x" (value_text (dict_get param "value")).
Proof.
  unfold get_replace, dict_get.
  destruct (param !! "value") as [[| s | n]|]; simpl; congruence.
Qed.

Lemma request_loop_filter params :
  request_loop params
  = map (fun p => DataIdentifier_param (dict_get p "value"))
        (List.filter is_DataIdentifier params).
Proof.
  induction params as [|p ps IH]; simpl; [reflexivity|].
  destruct (is_DataIdentifier p); simpl; congruence.
Qed.

Lemma response_loop_filter params : forall tail,
  response_loop params = Ok tail ->
  tail = flat_map did_pair (List.filter is_DataIdentifier params).
Proof.
  induction params as [|p ps IH]; intros tail; simpl.
  - intros [= <-]. reflexivity.
  - destruct (is_DataIdentifier p); [|apply IH].
    destruct (get_replace p "value" "0x") as [x|e] eqn:Hx; [|discriminate].
    destruct (response_loop ps) as [t|e]; [|discriminate].
    cbn. intros [= <-]. rewrite (IH t eq_refl), (get_replace_value _ _ Hx).
    reflexivity.
Qed.

(** In a list of emitted pairs every [DataIdentifier] entry sits right
    before its [Data] entry. *)
Lemma did_pairs_adjacent (ps : list (gmap string pyval)) :
  forall (i : nat) (p : gmap string pyval),
    flat_map did_pair ps !! i = Some p ->
    is_DataIdentifier p = true ->
    flat_map did_pair ps !! S i
    = Some (Data_param (Py.remove_all "0x" (value_text (dict_get p "value")))).
Proof.
  induction ps as [|q ps IH]; intros i p; [done|].
  cbn [flat_map did_pair app].
  destruct i as [|[|i]]; cbn.
  - intros [= <-] _. rewrite DataIdentifier_param_value. reflexivity.
  - intros [= <-]. rewrite Data_param_not_did. discriminate.
  - apply IH.
Qed.

(** Every [DataIdentifier] entry of a list of emitted pairs is the first
    half of the pair of one of the parameters. *)
Lemma did_pairs_source (ps : list (gmap string pyval)) :
  forall (i : nat) (p : gmap string pyval),
    flat_map did_pair ps !! i = Some p ->
    is_DataIdentifier p = true ->
    exists src, In src ps /\ p = DataIdentifier_param (dict_get src "value").
Proof.
  induction ps as [|q ps IH]; intros i p; [done|].
  cbn [flat_map did_pair app].
  destruct i as [|[|i]]; cbn.
  - intros [= <-] _. exists q. split; [left|]; reflexivity.
  - intros [= <-]. rewrite Data_param_not_did. discriminate.
  - intros Hi Hp. destruct (IH i p Hi Hp) as (src & Hs & ->).
    exists src. split; [right; exact Hs | reflexivity].
Qed.

(** Every parameter has its pair in the list of emitted pairs. *)
Lemma did_pairs_emitted (ps : list (gmap string pyval)) (src : gmap string pyval) :
  In src ps ->
  exists j : nat,
    flat_map did_pair ps !! j = Some (DataIdentifier_param (dict_get src "value"))
    /\ flat_map did_pair ps !! S j
       = Some (Data_param (Py.remove_all "0x" (value_text (dict_get src "value")))).
Proof.
  induction ps as [|q ps IH]; [intros []|].
  intros [->|Hin].
  - exists 0%nat. split; reflexivity.
  - destruct (IH Hin) as (j & A & B). exists (S (S j)). split; [exact A | exact B].
Qed.

Lemma convert_service_inv service o :
  _convert_service service = Ok (Some o) ->
  truthy (id service) = true /\ truthy (name service) = true
  /\ exists tail,
       response_loop (response_params service) = Ok tail
       /\ o = let service_id := _normalize_service_id (or_else (id service) "") in
              let service_name := _get_service_name service_id (name service) in
              {| odx_id := Py.remove_all " " service_name;
                 odx_name := service_name;
                 service_id := service_id;
                 odx_request_params :=
                   ServiceId_param service_id
                   :: request_loop (request_params service);
                 odx_response_params :=
                   ServiceId_param (_get_positive_response_id service_id) :: tail;
                 odx_description :=
                   or_else (description service) (service_name ++ " service") |}.
Proof.
  unfold _convert_service.
  destruct (truthy (id service)); simpl; [|discriminate].
  destruct (truthy (name service)); simpl; [|discriminate].
  destruct (response_loop (response_params service)) as [tail|e]; [|discriminate].
  cbn. intros [= <-]. eauto.
Qed.

Lemma convert_services_sound l : forall os,
  convert_services l = Ok os ->
  forall o, o ∈ os -> exists s, s ∈ l /\ _convert_service s = Ok (Some o).
Proof.
  induction l as [|s l IH]; intros os; simpl.
  - intros [= <-] o Ho. inversion Ho.
  - destruct (_convert_service s) as [r|e] eqn:Hs; [|discriminate].
    destruct (convert_services l) as [t|e]; [|discriminate].
    cbn. intros [= <-] o Ho.
    assert (Hin : (exists x, r = Some x /\ x = o) \/ o ∈ t).
    { destruct r as [x|]; [|right; exact Ho].
      apply elem_of_cons in Ho as [->|Ho]; [left; eauto | right; exact Ho]. }
    destruct Hin as [(x & -> & ->)|Hin].
    + exists s. split; [left | exact Hs].
    + destruct (IH t eq_refl o Hin) as (s' & Hs' & Hc).
      exists s'. split; [right; exact Hs' | exact Hc].
Qed.

Lemma convert_data_identifier_inv did o :
  _convert_data_identifier did = Some o ->
  truthy (identifier did) = true /\ truthy (did_name did) = true.
Proof.
  unfold _convert_data_identifier.
  destruct (truthy (identifier did)); simpl; [|discriminate].
  destruct (truthy (did_name did)); simpl; [|discriminate].
  auto.
Qed.

(** *** C1: the positive-response identifier *)

(** C1.  When the service-ID string reads as the base-16 integer [n], the
    positive-response identifier is ["0x"] followed by the [02X] rendering
    of [n + 0x40] (two upper-case hex digits whenever [n + 0x40] is a byte);
    SID [0x22] gives [0x62] and SID [0x3E] gives [0x7E]; a string that does
    not read as base 16 gives the marker [0x7F].  In a converted service the
    identifier derived from the normalised service ID heads the response
    parameters. *)
Theorem positive_response_id_derivation :
  (forall sid n, Py.int16 sid = Ok n ->
     _get_positive_response_id sid = "0x" ++ Py.format_0X 2 (n + 0x40))
  /\ (forall n, 0 <= n + 0x40 < 256 ->
        String.length (Py.format_0X 2 (n + 0x40)) = 2%nat
        /\ Py.all_chars is_upper_hex (Py.format_0X 2 (n + 0x40)) = true)
  /\ _get_positive_response_id "0x22" = "0x62"
  /\ _get_positive_response_id "0x3E" = "0x7E"
  /\ (forall sid, (forall n, Py.int16 sid <> Ok n) ->
        _get_positive_response_id sid = "0x7F")
  /\ (forall service o, _convert_service service = Ok (Some o) ->
        service_id o = _normalize_service_id (or_else (id service) "")
        /\ (forall n, Py.int16 (service_id o) = Ok n ->
              head (odx_response_params o)
              = Some (ServiceId_param ("0x" ++ Py.format_0X 2 (n + 0x40))))
        /\ ((forall n, Py.int16 (service_id o) <> Ok n) ->
              head (odx_response_params o) = Some (ServiceId_param "0x7F"))).
Proof.
  repeat split.
  - intros sid n H. unfold _get_positive_response_id. rewrite H. reflexivity.
  - pose proof (format_02X_byte (n + 0x40) H) as Hc. unfold check_02X in Hc.
    apply andb_true_iff in Hc as [Hc _]. apply andb_true_iff in Hc as [Hc _].
    apply Nat.eqb_eq, Hc.
  - pose proof (format_02X_byte (n + 0x40) H) as Hc. unfold check_02X in Hc.
    apply andb_true_iff in Hc as [Hc _]. apply andb_true_iff in Hc as [_ Hc].
    exact Hc.
  - intros sid H. unfold _get_positive_response_id.
    destruct (Py.int16 sid) as [n|e] eqn:E; [|reflexivity].
    exfalso. apply (H n). reflexivity.
  - apply convert_service_inv in H as (_ & _ & tail & _ & ->). reflexivity.
  - apply convert_service_inv in H as (_ & _ & tail & _ & ->). cbn.
    intros n Hn. unfold _get_positive_response_id. rewrite Hn. reflexivity.
  - apply convert_service_inv in H as (_ & _ & tail & _ & ->). cbn.
    intros Hn. unfold _get_positive_response_id.
    destruct (Py.int16 _) as [n|e] eqn:E; [|reflexivity].
    exfalso. apply (Hn n). reflexivity.
Qed.

Lemma positive_response_id_derivation_witness :
  Py.int16 "0x22" = Ok 0x22
  /\ _get_positive_response_id "0x22" = "0x" ++ Py.format_0X 2 (0x22 + 0x40).
Proof.
  split; [reflexivity|].
  apply (proj1 positive_response_id_derivation "0x22" 0x22). reflexivity.
Defined.

(** *** C3: hex normalisation *)

(** C3, as the code has it.  A non-empty string made of hex digits only is
    upper-cased and prefixed with ["0x"] (["FE90"] gives ["0xFE90"]), by
    [_normalize_hex] and by [_normalize_service_id] alike.  A non-empty
    string that, once stripped and upper-cased, neither starts with ["0X"]
    nor consists of hex digits only is returned stripped and upper-cased,
    with no prefix added; it comes back unchanged when stripping and
    upper-casing do not change it. *)
Theorem normalize_hex_amended :
  (forall s, s <> "" -> Py.all_chars is_hex_digit s = true ->
     _normalize_hex s = "0x" ++ Py.upper s
     /\ _normalize_service_id s = "0x" ++ Py.upper s)
  /\ _normalize_hex "FE90" = "0xFE90"
  /\ _normalize_service_id "FE90" = "0xFE90"
  /\ (forall s, s <> "" ->
        Py.startswith "0X" (Py.upper (Py.strip s)) = false ->
        Py.all_chars is_upper_hex (Py.upper (Py.strip s)) = false ->
        _normalize_hex s = Py.upper (Py.strip s)
        /\ _normalize_service_id s = Py.upper (Py.strip s))
  /\ (forall s, s <> "" ->
        Py.upper (Py.strip s) = s ->
        Py.startswith "0X" s = false ->
        Py.all_chars is_upper_hex s = false ->
        _normalize_hex s = s /\ _normalize_service_id s = s).
Proof.
  assert (A : forall s, s <> "" -> Py.all_chars is_hex_digit s = true ->
                _normalize_hex s = "0x" ++ Py.upper s).
  { intros s Hne Hs. destruct s as [|c s]; [congruence|].
    rewrite normalize_hex_unfold. cbv zeta.
    rewrite (strip_hex _ Hs), (upper_hex_no_prefix _ Hs), (upper_hex _ Hs).
    reflexivity. }
  assert (B : forall s, s <> "" ->
                Py.startswith "0X" (Py.upper (Py.strip s)) = false ->
                Py.all_chars is_upper_hex (Py.upper (Py.strip s)) = false ->
                _normalize_hex s = Py.upper (Py.strip s)).
  { intros s Hne Hp Hh. destruct s as [|c s]; [congruence|].
    rewrite normalize_hex_unfold. cbv zeta. rewrite Hp, Hh. reflexivity. }
  split; [|split; [|split; [|split]]].
  - intros s Hne Hs. rewrite (normalize_service_id_nonempty s Hne). auto.
  - reflexivity.
  - reflexivity.
  - intros s Hne Hp Hh. rewrite (normalize_service_id_nonempty s Hne). auto.
  - intros s Hne Hu Hp Hh. rewrite (normalize_service_id_nonempty s Hne).
    rewrite <- Hu in Hp, Hh. rewrite (B s Hne Hp Hh). auto.
Qed.

Lemma normalize_hex_amended_witness :
  _normalize_hex "fe90" = "0x" ++ Py.upper "fe90"
  /\ _normalize_hex " did-name " = Py.upper (Py.strip " did-name ")
  /\ _normalize_hex "DID-NAME" = "DID-NAME".
Proof.
  destruct normalize_hex_amended as (A & _ & _ & B & C).
  split; [|split].
  - apply (A "fe90"); [discriminate | reflexivity].
  - apply (B " did-name "); [discriminate | reflexivity | reflexivity].
  - apply (C "DID-NAME"); [discriminate | reflexivity | reflexivity | reflexivity].
Defined.

(** C3 as stated fails: the prefixed input ["0xfe90"] comes back as
    ["0XFE90"], not ["0xFE90"]; normalising ["FE90"] twice differs from
    normalising it once; and the non-hex string ["did-name"] does not pass
    through unchanged. *)
Lemma normalize_hex_counterexample :
  _normalize_hex "0xfe90" = "0XFE90"
  /\ _normalize_hex "0xfe90" <> "0xFE90"
  /\ _normalize_hex (_normalize_hex "FE90") <> _normalize_hex "FE90"
  /\ _normalize_hex "did-name" <> "did-name"
  /\ _normalize_service_id "0xfe90" <> "0xFE90".
Proof. repeat split; try reflexivity; vm_compute; discriminate. Qed.

(** *** C4: the parameter lists of a converted service *)

(** C4.  For a service that [_convert_service] converts: the request list
    is the [ServiceId] parameter with the normalised service ID followed by
    one [DataIdentifier] parameter per source request parameter of that
    type, in order, each with the source parameter's value; the response
    list is the [ServiceId] parameter with the positive-response ID followed
    by what the response loop emits, a [DataIdentifier] parameter and a
    [Data] parameter per source response parameter of that type; and every
    [DataIdentifier] entry of the response list is immediately followed by a
    [Data] entry whose [structure_ref] is ["DOP.DID_"] and the value with
    ["0x"] removed, which for a hex value ["0x" ++ h], or [h] without
    prefix, is [h].  The dictionaries are written out, and so is what
    [get] finds in them. *)
Theorem convert_service_parameter_lists (service : Service) (o : ODXService) :
  _convert_service service = Ok (Some o) ->
  service_id o = _normalize_service_id (or_else (id service) "")
  /\ odx_request_params o
     = {[ "type" := PyStr "ServiceId"; "name" := PyStr "ServiceId";
          "value" := PyStr (service_id o) ]}
       :: map (fun p => {[ "type" := PyStr "DataIdentifier"; "name" := PyStr "DID";
                           "value" := dict_get p "value" ]})
              (List.filter is_DataIdentifier (request_params service))
  /\ odx_response_params o
     = {[ "type" := PyStr "ServiceId"; "name" := PyStr "ServiceId";
          "value" := PyStr (_get_positive_response_id (service_id o)) ]}
       :: flat_map
            (fun p =>
               let did_id := Py.remove_all "0x" (value_text (dict_get p "value")) in
               [ {[ "type" := PyStr "DataIdentifier"; "name" := PyStr "DID";
                    "value" := dict_get p "value" ]};
                 {[ "type" := PyStr "Data";
                    "name" := PyStr ("DID_" ++ did_id ++ "_Data");
                    "structure_ref" := PyStr ("DOP.DID_" ++ did_id) ]} ])
            (List.filter is_DataIdentifier (response_params service))
  /\ (exists first,
        odx_request_params o !! 0%nat = Some first
        /\ dict_get first "type" = PyStr "ServiceId"
        /\ dict_get first "name" = PyStr "ServiceId"
        /\ dict_get first "value" = PyStr (service_id o))
  /\ (forall (i : nat) (q : gmap string pyval),
        odx_request_params o !! S i = Some q ->
        dict_get q "type" = PyStr "DataIdentifier"
        /\ dict_get q "name" = PyStr "DID"
        /\ exists p,
             List.filter is_DataIdentifier (request_params service) !! i = Some p
             /\ dict_get p "type" = PyStr "DataIdentifier"
             /\ dict_get q "value" = dict_get p "value")
  /\ (exists first,
        odx_response_params o !! 0%nat = Some first
        /\ dict_get first "type" = PyStr "ServiceId"
        /\ dict_get first "name" = PyStr "ServiceId"
        /\ dict_get first "value" = PyStr (_get_positive_response_id (service_id o)))
  /\ (forall (i : nat) (p : gmap string pyval),
        odx_response_params o !! i = Some p ->
        dict_get p "type" = PyStr "DataIdentifier" ->
        dict_get p "name" = PyStr "DID"
        /\ (exists src, In src (response_params service)
              /\ dict_get src "type" = PyStr "DataIdentifier"
              /\ dict_get src "value" = dict_get p "value")
        /\ exists q did_id,
             odx_response_params o !! S i = Some q
             /\ dict_get q "type" = PyStr "Data"
             /\ dict_get q "name" = PyStr ("DID_" ++ did_id ++ "_Data")
             /\ dict_get q "structure_ref" = PyStr ("DOP.DID_" ++ did_id)
             /\ did_id = Py.remove_all "0x" (value_text (dict_get p "value"))
             /\ (forall h, Py.all_chars is_hex_digit h = true ->
                   dict_get p "value" = PyStr ("0x" ++ h) \/ dict_get p "value" = PyStr h ->
                   did_id = h))
  /\ (forall src, In src (response_params service) ->
        dict_get src "type" = PyStr "DataIdentifier" ->
        exists (i : nat) (p : gmap string pyval),
          odx_response_params o !! i = Some p
          /\ dict_get p "type" = PyStr "DataIdentifier"
          /\ dict_get p "value" = dict_get src "value").
Proof.
  intros H. apply convert_service_inv in H as (_ & _ & tail & Ht & ->).
  apply response_loop_filter in Ht as ->. cbn.
  split; [reflexivity|]. split; [by rewrite request_loop_filter|].
  split; [reflexivity|].
  split.
  { eexists. split; [reflexivity|].
    split; [apply ServiceId_param_type|].
    split; [apply ServiceId_param_name | apply ServiceId_param_value]. }
  split.
  { intros i q Hq. rewrite request_loop_filter in Hq.
    apply list_lookup_fmap_Some_1 in Hq as (p & -> & Hp).
    split; [apply DataIdentifier_param_type|].
    split; [apply DataIdentifier_param_name|].
    exists p. split; [exact Hp|]. split.
    - apply list_elem_of_lookup_2, list_elem_of_In, filter_In in Hp as [_ Hp].
      apply is_DataIdentifier_true, Hp.
    - apply DataIdentifier_param_value. }
  split.
  { eexists. split; [reflexivity|].
    split; [apply ServiceId_param_type|].
    split; [apply ServiceId_param_name | apply ServiceId_param_value]. }
  split.
  { intros i p Hi Hp. apply is_DataIdentifier_true in Hp.
    destruct i as [|i].
    { cbn in Hi. injection Hi as <-. rewrite ServiceId_param_not_did in Hp.
      discriminate. }
    cbn in Hi.
    destruct (did_pairs_source _ _ _ Hi Hp) as (src & Hsrc & ->).
    apply filter_In in Hsrc as [Hsrc Hd].
    split; [apply DataIdentifier_param_name|].
    split.
    { exists src. split; [exact Hsrc|]. split; [apply is_DataIdentifier_true, Hd|].
      symmetry. apply DataIdentifier_param_value. }
    eexists. eexists. split; [|split; [|split; [|split; [|split]]]].
    + cbn. apply did_pairs_adjacent; eassumption.
    + apply Data_param_type.
    + apply Data_param_name.
    + apply Data_param_structure_ref.
    + reflexivity.
    + intros h Hh [-> | ->]; cbn;
        [apply remove_0x_prefixed | apply remove_0x_unprefixed]; exact Hh. }
  intros src Hsrc Hd.
  assert (Hf : In src (List.filter is_DataIdentifier (response_params service))).
  { apply filter_In. split; [exact Hsrc | apply is_DataIdentifier_true, Hd]. }
  destruct (did_pairs_emitted _ _ Hf) as (j & Hj & _).
  exists (S j). eexists. split; [exact Hj|].
  split; [apply DataIdentifier_param_type | apply DataIdentifier_param_value].
Qed.

Lemma convert_service_parameter_lists_witness :
  exists o, _convert_service read_did_service = Ok (Some o)
    /\ odx_request_params o
       = [ {[ "type" := PyStr "ServiceId"; "name" := PyStr "ServiceId";
              "value" := PyStr "0x22" ]};
           {[ "type" := PyStr "DataIdentifier"; "name" := PyStr "DID";
              "value" := PyStr "0xFE90" ]} ]
    /\ odx_response_params o
       = [ {[ "type" := PyStr "ServiceId"; "name" := PyStr "ServiceId";
              "value" := PyStr "0x62" ]};
           {[ "type" := PyStr "DataIdentifier"; "name" := PyStr "DID";
              "value" := PyStr "0xFE90" ]};
           {[ "type" := PyStr "Data"; "name" := PyStr "DID_FE90_Data";
              "structure_ref" := PyStr "DOP.DID_FE90" ]} ].
Proof.
  destruct (_convert_service read_did_service) as [[o|]|e] eqn:E;
    [|vm_compute in E; discriminate E | vm_compute in E; discriminate E].
  exists o. split; [reflexivity|].
  destruct (convert_service_parameter_lists read_did_service o E)
    as (Hid & Hreq & Hres & _).
  assert (Hs : service_id o = "0x22") by (rewrite Hid; reflexivity).
  rewrite Hreq, Hres, Hs. split; reflexivity.
Defined.

(** *** C5: the drop policy *)

(** C5, as the code has it.  The policy is the same on both sides: a DID
    record lacking its identifier or its name gives no result, a service
    record lacking its id or its name gives no result either, and every
    entry of the two ODX output lists comes from a source record that has
    both.  In a record that is emitted the identity fields come from the
    source record (the service name possibly replaced by the table's name
    for its ID), and a default stands in only for a description that is
    missing or empty, for a data type that is missing or empty, and for a
    length that is missing or zero. *)
Theorem drop_policy_amended :
  (forall did, truthy (identifier did) = false \/ truthy (did_name did) = false ->
     _convert_data_identifier did = None)
  /\ (forall service, truthy (id service) = false \/ truthy (name service) = false ->
        _convert_service service = Ok None)
  /\ (forall data ecu doc, _convert_diagnostic_data data ecu = Ok doc ->
        (forall o, o ∈ odx_services doc ->
           exists s, s ∈ services data
             /\ truthy (id s) = true /\ truthy (name s) = true
             /\ _convert_service s = Ok (Some o))
        /\ (forall o, o ∈ odx_data_identifiers doc ->
              exists d, d ∈ data_identifiers data
                /\ truthy (identifier d) = true /\ truthy (did_name d) = true
                /\ _convert_data_identifier d = Some o))
  /\ (forall service o, _convert_service service = Ok (Some o) ->
        (exists i n, id service = Some i /\ i <> "" /\ name service = Some n /\ n <> ""
           /\ service_id o = _normalize_service_id i
           /\ (odx_name o = n \/ uds_services !! service_id o = Some (odx_name o)))
        /\ (forall text, description service = Some text -> text <> "" ->
              odx_description o = text)
        /\ (description service = None \/ description service = Some "" ->
              odx_description o = odx_name o ++ " service"))
  /\ (forall did o, _convert_data_identifier did = Some o ->
        (exists i n, identifier did = Some i /\ i <> "" /\ did_name did = Some n /\ n <> ""
           /\ odx_identifier o = _normalize_hex i
           /\ odx_did_name o = n)
        /\ (forall text, did_description did = Some text -> text <> "" ->
              odx_did_description o = text)
        /\ (did_description did = None \/ did_description did = Some "" ->
              odx_did_description o = "Data Identifier " ++ odx_identifier o)
        /\ (forall t, encoding did = Some t -> t <> "" -> data_type o = t)
        /\ (encoding did = None \/ encoding did = Some "" -> data_type o = "BYTEFIELD")
        /\ (forall k, length did = Some k -> k <> 0 -> odx_length o = k)
        /\ (length did = None \/ length did = Some 0 -> odx_length o = 1)).
Proof.
  split; [|split; [|split; [|split]]].
  - intros did [H|H]; unfold _convert_data_identifier; rewrite H;
      [reflexivity | by rewrite orb_true_r].
  - intros service [H|H]; unfold _convert_service; rewrite H;
      [reflexivity | by rewrite orb_true_r].
  - intros data ecu doc. unfold _convert_diagnostic_data.
    destruct (convert_services (services data)) as [os|e] eqn:Hos; [|discriminate].
    cbn. intros [= <-]. cbn. split.
    + intros o Ho. destruct (convert_services_sound _ _ Hos o Ho) as (s & Hs & Hc).
      exists s. destruct (convert_service_inv _ _ Hc) as (Hi & Hn & _). auto.
    + intros o Ho. apply list_elem_of_omap in Ho as (d & Hd & Hc).
      exists d. destruct (convert_data_identifier_inv _ _ Hc). auto.
  - intros service o H.
    apply convert_service_inv in H as (Hi & Hn & tail & _ & ->).
    cbn [service_id odx_name odx_description].
    destruct (id service) as [[|ci i]|]; try discriminate Hi.
    destruct (name service) as [[|cn n]|]; try discriminate Hn.
    split; [|split].
    + exists (String ci i), (String cn n).
      split; [reflexivity|]. split; [discriminate|].
      split; [reflexivity|]. split; [discriminate|]. split; [reflexivity|].
      unfold _get_service_name.
      destruct (uds_services !! _) as [t|]; [right | left]; reflexivity.
    + intros text -> Hne. destruct text; [congruence | reflexivity].
    + intros [-> | ->]; reflexivity.
  - intros did o. unfold _convert_data_identifier.
    destruct (identifier did) as [[|ci i]|]; try discriminate.
    destruct (did_name did) as [[|cn n]|]; try discriminate.
    cbn [truthy negb orb]. intros [= <-].
    cbn [odx_identifier odx_did_name odx_did_description data_type odx_length].
    split; [|split; [|split; [|split; [|split; [|split]]]]].
    + exists (String ci i), (String cn n).
      split; [reflexivity|]. split; [discriminate|].
      split; [reflexivity|]. split; [discriminate|]. split; reflexivity.
    + intros text -> Hne. destruct text; [congruence | reflexivity].
    + intros [-> | ->]; reflexivity.
    + intros t -> Hne. destruct t; [congruence | reflexivity].
    + intros [-> | ->]; reflexivity.
    + intros k -> Hne. apply Z.eqb_neq in Hne. rewrite Hne. reflexivity.
    + intros [-> | ->]; reflexivity.
Qed.

Lemma drop_policy_amended_witness :
  _convert_data_identifier anonymous_did = None
  /\ _convert_service anonymous_service = Ok None
  /\ (exists o, _convert_service read_did_service = Ok (Some o)
        /\ odx_description o = "ReadDataByIdentifier service")
  /\ (exists o, _convert_data_identifier serial_number_did = Some o
        /\ odx_did_description o = "Data Identifier 0xF18C"
        /\ data_type o = "BYTEFIELD"
        /\ odx_length o = 1).
Proof.
  destruct drop_policy_amended as (A & B & _ & C & D).
  split; [|split; [|split]].
  - apply (A anonymous_did). left. reflexivity.
  - apply (B anonymous_service). left. reflexivity.
  - destruct (_convert_service read_did_service) as [[o|]|e] eqn:E;
      [|vm_compute in E; discriminate E | vm_compute in E; discriminate E].
    exists o. split; [reflexivity|].
    destruct (C read_did_service o E)
      as ((i & n & Hi & _ & Hn & _ & Hid & Hname) & _ & Hd).
    injection Hi as <-. injection Hn as <-.
    rewrite (Hd (or_introl eq_refl)).
    destruct Hname as [-> | Hl]; [reflexivity|].
    assert (T : uds_services !! _normalize_service_id "22"
                = Some "ReadDataByIdentifier") by (vm_compute; reflexivity).
    rewrite Hid, T in Hl. injection Hl as <-. reflexivity.
  - destruct (_convert_data_identifier serial_number_did) as [o|] eqn:E;
      [|vm_compute in E; discriminate E].
    exists o. split; [reflexivity|].
    destruct (D serial_number_did o E)
      as ((i & n & Hi & _ & _ & _ & Hid & _) & _ & Hdesc & _ & Htype & _ & Hlen).
    injection Hi as <-.
    rewrite (Hdesc (or_introl eq_refl)), Hid, (Htype (or_introl eq_refl)),
      (Hlen (or_introl eq_refl)).
    split; [reflexivity|]. split; reflexivity.
Defined.

(** C5 as stated fails: the service record without identity fields is not
    in the ODX output, exactly like the DID record without them. *)
Lemma drop_policy_counterexample :
  _convert_service anonymous_service = Ok None
  /\ exists doc, _convert_diagnostic_data anonymous_data "ECU" = Ok doc
       /\ odx_services doc = []
       /\ odx_data_identifiers doc = [].
Proof. split; [reflexivity|]. eexists. split; [reflexivity|]. split; reflexivity. Qed.

End MapperProps.

(* ===================================================================== *)
(** ** Properties of the CDD parser *)
(* ===================================================================== *)

Module ParserProps.
Import ET Parser Spec Samples PyFacts.

(** *** The tree searches *)

Lemma descendants_unfold e :
  descendants e = flat_map (fun c => c :: descendants c) (children e).
Proof. destruct e. reflexivity. Qed.

Lemma child_is_descendant e c : In c (children e) -> In c (descendants e).
Proof.
  intros H. rewrite descendants_unfold. apply in_flat_map.
  exists c. split; [exact H | left; reflexivity].
Qed.

Lemma descendant_of_child e c x :
  In c (children e) -> In x (descendants c) -> In x (descendants e).
Proof.
  intros Hc Hx. rewrite descendants_unfold. apply in_flat_map.
  exists c. split; [exact Hc | right; exact Hx].
Qed.

Lemma findall_path_in_desc a b e x :
  In x (findall_path a b e) -> In x (findall_desc b e).
Proof.
  unfold findall_path, findall_desc, findall_child. intros H.
  apply in_flat_map in H as (c & Hc & Hx).
  apply filter_In in Hc as [Hc _]. apply filter_In in Hx as [Hx Ht].
  apply filter_In. split; [|exact Ht].
  eapply descendant_of_child; [exact Hc | apply child_is_descendant, Hx].
Qed.

Lemma head_In {A : Type} (l : list A) (x : A) : head l = Some x -> In x l.
Proof. destruct l; simpl; [discriminate | intros [= ->]; left; reflexivity]. Qed.

Lemma head_filter {A : Type} (f : A -> bool) (l : list A) (x : A) :
  head (List.filter f l) = Some x -> In x l /\ f x = true.
Proof. intros H. apply head_In in H. apply filter_In in H. exact H. Qed.

Lemma no_TUV_no_name e :
  findall_desc "TUV" e = [] -> find_path "NAME" "TUV" e = None.
Proof.
  intros H. unfold find_path.
  destruct (head (findall_path "NAME" "TUV" e)) as [x|] eqn:Hx; [|reflexivity].
  apply head_In, findall_path_in_desc in Hx. rewrite H in Hx. destruct Hx.
Qed.

Lemma locate_name_fallback e :
  find_path "NAME" "TUV" e = None -> locate_name e = head (findall_desc "TUV" e).
Proof. unfold locate_name. intros ->. reflexivity. Qed.

Lemma locate_did_name_none e :
  findall_desc "TUV" e = [] -> locate_did_name e = None.
Proof.
  intros H. unfold locate_did_name. rewrite (no_TUV_no_name e H), H. reflexivity.
Qed.

(** *** [int] raises nothing but [ValueError] *)

Lemma int_base_raises base s e : Py.int_base base s = Raise e -> e = ValueError.
Proof.
  unfold Py.int_base.
  destruct (Py.skip_sign _) as [neg s2].
  destruct (Py.startswith _ _); [congruence|].
  destruct (Py.scan_digits _ _ _ _ _) as [[[v k] rest]|]; [|congruence].
  destruct (k =? 0)%nat; [congruence|].
  destruct (negb _ && _); [congruence|].
  destruct (Py.lstrip_with _ rest); congruence.
Qed.

Lemma extract_sid_total e : exists sid, extract_sid e = Ok sid.
Proof.
  unfold extract_sid.
  destruct (find_desc_attr _ _ _ e) as [c|]; [|eexists; reflexivity].
  destruct (truthy _); [|eexists; reflexivity].
  destruct (Py.int _) as [n|x] eqn:E; [eexists; reflexivity|].
  apply int_base_raises in E as ->. eexists; reflexivity.
Qed.

(** The SID step on the component it finds: a decimal [v] is read, a [v]
    that [int] refuses leaves the ID unset. *)
Lemma extract_sid_found service_elem c :
  find_desc_attr "CONSTCOMP" "spec" "sid" service_elem = Some c ->
  (forall n, get_default c "v" "" <> "" -> Py.int (get_default c "v" "") = Ok n ->
     extract_sid service_elem = Ok (Some n))
  /\ (Py.int (get_default c "v" "") = Raise ValueError ->
        extract_sid service_elem = Ok None).
Proof.
  intros Hc. unfold extract_sid. rewrite Hc.
  destruct (get_default c "v" "") as [|a v]; simpl.
  - split; [congruence | reflexivity].
  - split; [intros n _ -> | intros ->]; reflexivity.
Qed.

(** *** Inversion of the two record parsers *)

Lemma parse_did_inv did_elem d :
  _parse_did did_elem = Some d ->
  Py.int (get_default did_elem "n" "0") = Ok (number d)
  /\ number_hex d = "0x" ++ Py.format_0X 4 (number d)
  /\ did_name d = text_or ("DID_" ++ number_hex d) (locate_did_name did_elem).
Proof.
  unfold _parse_did.
  destruct (Py.int (get_default did_elem "n" "0")) as [n|e]; [|discriminate].
  cbn. intros [= <-]. cbn. auto.
Qed.

Lemma parse_did_total did_elem n :
  Py.int (get_default did_elem "n" "0") = Ok n ->
  exists d, _parse_did did_elem = Some d /\ number d = n.
Proof. intros H. unfold _parse_did. rewrite H. cbn. eexists. split; reflexivity. Qed.

Lemma parse_protocol_service_inv service_elem s :
  _parse_protocol_service service_elem = Some s ->
  resolve_description service_elem (locate_name service_elem) Unbound
    = Ok (svc_description s)
  /\ extract_sid service_elem = Ok (uds_service_id s)
  /\ svc_name s = text_or "Unknown Service" (locate_name service_elem)
  /\ svc_id s = get_default service_elem "id" ""
  /\ request s = parse_message_at "REQ" service_elem.
Proof.
  unfold _parse_protocol_service.
  destruct (resolve_description _ _ _) as [desc|e]; [|discriminate].
  destruct (extract_sid service_elem) as [sid|e]; [|discriminate].
  cbn. intros [= <-]. cbn. auto.
Qed.

(** Without a description text and with a name text, the description step
    reads the unassigned local and the service is lost. *)
Lemma undescribed_service_dropped service_elem name_elem :
  (forall d, find_path "DESC" "TUV" service_elem = Some d -> truthy (text d) = false) ->
  locate_name service_elem = Some name_elem ->
  truthy (text name_elem) = true ->
  _parse_protocol_service service_elem = None.
Proof.
  intros Hd Hn Ht.
  assert (E : resolve_description service_elem (locate_name service_elem) Unbound
              = Raise UnboundLocalError).
  { unfold resolve_description. rewrite Hn.
    destruct name_elem as [nt na [[|c n]|] nc]; try discriminate Ht.
    destruct (find_path "DESC" "TUV" service_elem) as [[dt da [[|c' d']|] dc]|] eqn:E;
      try reflexivity.
    specialize (Hd _ eq_refl). discriminate Hd. }
  unfold _parse_protocol_service. rewrite E. reflexivity.
Qed.

(** With a description text the service is returned, whatever its SID
    component holds. *)
Lemma described_service_parsed service_elem d c t :
  find_path "DESC" "TUV" service_elem = Some d ->
  text d = Some (String c t) ->
  exists s, _parse_protocol_service service_elem = Some s
    /\ svc_description s = String c t
    /\ extract_sid service_elem = Ok (uds_service_id s).
Proof.
  intros Hd Ht.
  assert (E : forall ne u, resolve_description service_elem ne u = Ok (String c t)).
  { intros ne u. unfold resolve_description. rewrite Hd.
    destruct d as [dt da dx dc]. simpl in Ht. subst dx. reflexivity. }
  destruct (extract_sid_total service_elem) as [sid Hs].
  unfold _parse_protocol_service. rewrite E, Hs. cbn.
  eexists. split; [reflexivity|]. split; reflexivity.
Qed.

(** *** C2: the hex form of a DID number *)

(** C2.  In every DID record the parser returns, [number] is the decimal
    reading of the [n] attribute and [number_hex] is ["0x"] followed by the
    [04X] rendering of [number]; two records with the same number have the
    same hex form; [n="65168"] gives ["0xFE90"]; and on the 16-bit range the
    hex form is ["0x"] with exactly four upper-case hex digits which read
    back, in base 16, as [number]. *)
Theorem did_number_hex_derived :
  (forall did_elem d, _parse_did did_elem = Some d ->
     Py.int (get_default did_elem "n" "0") = Ok (number d)
     /\ number_hex d = "0x" ++ Py.format_0X 4 (number d))
  /\ (forall e1 e2 d1 d2, _parse_did e1 = Some d1 -> _parse_did e2 = Some d2 ->
        number d1 = number d2 -> number_hex d1 = number_hex d2)
  /\ (forall did_elem, get did_elem "n" = Some "65168" ->
        exists d, _parse_did did_elem = Some d
          /\ number d = 65168 /\ number_hex d = "0xFE90")
  /\ (forall did_elem d, _parse_did did_elem = Some d ->
        0 <= number d < 65536 ->
        exists digits, number_hex d = "0x" ++ digits
          /\ String.length digits = 4%nat
          /\ Py.all_chars Mapper.is_upper_hex digits = true
          /\ Py.int16 (number_hex d) = Ok (number d)).
Proof.
  split; [|split; [|split]].
  - intros e d H. apply parse_did_inv in H as (H1 & H2 & _). auto.
  - intros e1 e2 d1 d2 H1 H2 E.
    apply parse_did_inv in H1 as (_ & -> & _).
    apply parse_did_inv in H2 as (_ & -> & _). rewrite E. reflexivity.
  - intros e Hn.
    assert (Hi : Py.int (get_default e "n" "0") = Ok 65168).
    { unfold get_default. unfold get in Hn. rewrite Hn. reflexivity. }
    destruct (parse_did_total e _ Hi) as (d & Hd & Hnum).
    exists d. split; [exact Hd|]. split; [exact Hnum|].
    apply parse_did_inv in Hd as (_ & -> & _). rewrite Hnum. reflexivity.
  - intros e d H Hr. apply parse_did_inv in H as (_ & H2 & _).
    destruct (format_04X_uint16 _ Hr) as (L & U & R).
    exists (Py.format_0X 4 (number d)). rewrite H2. auto.
Qed.

Lemma did_number_hex_derived_witness :
  exists d, _parse_did numbered_did_elem = Some d
    /\ number d = 65168 /\ number_hex d = "0xFE90".
Proof.
  destruct did_number_hex_derived as (_ & _ & A & _).
  apply (A numbered_did_elem). reflexivity.
Defined.

(** *** C6 and C7: a service without description text *)

(** C6 at its failing input.  For the service element named
    ["DiagnosticSessionControl"] and without [DESC] text, the description
    step raises [UnboundLocalError] and the parser returns no record; run
    with [uds_service_id] bound to [None], the same step yields the table
    entry of service [0x10]. *)
Theorem session_control_service_dropped :
  find_path "DESC" "TUV" session_control_elem = None
  /\ (text <$> locate_name session_control_elem)
     = Some (Some "DiagnosticSessionControl")
  /\ resolve_description session_control_elem
       (locate_name session_control_elem) Unbound = Raise UnboundLocalError
  /\ _parse_protocol_service session_control_elem = None
  /\ (exists canonical, uds_descriptions !! 0x10 = Some canonical
        /\ resolve_description session_control_elem
             (locate_name session_control_elem) (Bound None) = Ok canonical).
Proof.
  repeat split; try (vm_compute; reflexivity).
  eexists. split; vm_compute; reflexivity.
Qed.

(** C7 at its failing inputs.  For a named service element without [DESC]
    text, the SID step alone reads [v="16"] as 16 and leaves a non-numeric
    [v] unset without raising, but the parser returns no record at all; the
    same two elements with a [DESC] text are returned, with
    [uds_service_id] 16 and unset. *)
Theorem sid_service_dropped :
  extract_sid sid_16_elem = Ok (Some 16)
  /\ _parse_protocol_service sid_16_elem = None
  /\ extract_sid sid_text_elem = Ok None
  /\ _parse_protocol_service sid_text_elem = None
  /\ (uds_service_id <$> _parse_protocol_service described_sid_16_elem)
     = Some (Some 16)
  /\ (uds_service_id <$> _parse_protocol_service described_sid_text_elem)
     = Some None.
Proof. repeat split; vm_compute; reflexivity. Qed.

(** *** C8: where the service ID comes from *)

(** C8, as the code has it.  In a parsed service record, a present
    [uds_service_id] is the decimal reading of the [v] attribute of the
    first [CONSTCOMP] with [spec="sid"] among all descendants of the service
    element, in document order; it is absent when there is no such
    component, or when that component's [v] is empty or is no integer. *)
Theorem uds_service_id_source (service_elem : Element) (s : CDDProtocolService) :
  _parse_protocol_service service_elem = Some s ->
  match uds_service_id s with
  | Some n =>
      exists c, find_desc_attr "CONSTCOMP" "spec" "sid" service_elem = Some c
        /\ In c (descendants service_elem)
        /\ tag c = "CONSTCOMP" /\ get c "spec" = Some "sid"
        /\ Py.int (get_default c "v" "") = Ok n
  | None =>
      find_desc_attr "CONSTCOMP" "spec" "sid" service_elem = None
      \/ exists c, find_desc_attr "CONSTCOMP" "spec" "sid" service_elem = Some c
           /\ (get_default c "v" "" = ""
               \/ Py.int (get_default c "v" "") = Raise ValueError)
  end.
Proof.
  intros H. apply parse_protocol_service_inv in H as (_ & H & _).
  unfold extract_sid in H.
  destruct (find_desc_attr "CONSTCOMP" "spec" "sid" service_elem) as [c|] eqn:Hc.
  - pose proof Hc as Hc'. unfold find_desc_attr, findall_desc_attr in Hc'.
    apply head_filter in Hc' as [Hin Hspec].
    apply bool_decide_eq_true in Hspec.
    unfold findall_desc in Hin. apply filter_In in Hin as [Hin Htag].
    apply String.eqb_eq in Htag.
    destruct (get_default c "v" "") as [|a v] eqn:Hv; simpl in H.
    + injection H as <-. right. exists c. split; [reflexivity | left; exact Hv].
    + destruct (Py.int (String a v)) as [n|e] eqn:Hi.
      * injection H as <-. exists c. rewrite Hv. repeat split; assumption.
      * pose proof (int_base_raises _ _ _ Hi) as ->.
        injection H as <-. right. exists c. rewrite Hv.
        split; [reflexivity | right; exact Hi].
  - injection H as <-. left. reflexivity.
Qed.

Lemma uds_service_id_source_witness :
  exists s, _parse_protocol_service response_sid_elem = Some s
    /\ uds_service_id s = Some 80
    /\ match uds_service_id s with
       | Some n =>
           exists c,
             find_desc_attr "CONSTCOMP" "spec" "sid" response_sid_elem = Some c
             /\ In c (descendants response_sid_elem)
             /\ tag c = "CONSTCOMP" /\ get c "spec" = Some "sid"
             /\ Py.int (get_default c "v" "") = Ok n
       | None =>
           find_desc_attr "CONSTCOMP" "spec" "sid" response_sid_elem = None
           \/ exists c,
                find_desc_attr "CONSTCOMP" "spec" "sid" response_sid_elem = Some c
                /\ (get_default c "v" "" = ""
                    \/ Py.int (get_default c "v" "") = Raise ValueError)
       end.
Proof.
  eexists. split; [vm_compute; reflexivity|]. split; [reflexivity|].
  apply (uds_service_id_source response_sid_elem). vm_compute. reflexivity.
Defined.

(** C8 as stated fails: the record of [response_sid_elem] has
    [uds_service_id] 80, read from the positive response, while its request
    message holds no component tagged ["sid"]. *)
Lemma uds_service_id_source_counterexample :
  exists s m, _parse_protocol_service response_sid_elem = Some s
    /\ uds_service_id s = Some 80
    /\ request s = Some m
    /\ map comp_spec (components m) = ["sub"]
    /\ (findall_desc_attr "CONSTCOMP" "spec" "sid" <$> find_child "REQ" response_sid_elem)
       = Some [].
Proof. do 2 eexists. repeat split; vm_compute; reflexivity. Qed.

(** *** C9: the name locator *)

(** C9, as the code has it.  When [NAME/TUV] finds nothing, the locator of
    services, messages, components and data objects takes the first [TUV]
    descendant in document order, whatever its language attribute, and the
    name of the record is that node's text; when there is no [TUV]
    descendant at all the name is the caller's default ([Unknown Service],
    [Message], [Component], [DataObject]), for these four and for DIDs
    ([DID_] and the hex number) alike. *)
Theorem name_locator_amended :
  (forall e, find_path "NAME" "TUV" e = None ->
     locate_name e = head (findall_desc "TUV" e))
  /\ (forall e s, _parse_protocol_service e = Some s ->
        find_path "NAME" "TUV" e = None ->
        svc_name s = match head (findall_desc "TUV" e) with
                     | Some x => text x
                     | None => Some "Unknown Service"
                     end)
  /\ (forall e d, findall_desc "TUV" e = [] ->
        text_or d (locate_name e) = Some d
        /\ text_or d (locate_did_name e) = Some d)
  /\ (forall e d, _parse_did e = Some d -> findall_desc "TUV" e = [] ->
        did_name d = Some ("DID_" ++ number_hex d))
  /\ (forall e, find_path "NAME" "TUV" e = None ->
        exists m, _parse_service_message e = Some m
          /\ msg_name m = match head (findall_desc "TUV" e) with
                          | Some x => text x
                          | None => Some "Message"
                          end)
  /\ (forall e comp_type, find_path "NAME" "TUV" e = None ->
        exists c, _parse_component e comp_type = Some c
          /\ comp_name c = match head (findall_desc "TUV" e) with
                           | Some x => text x
                           | None => Some "Component"
                           end)
  /\ (forall e, find_path "NAME" "TUV" e = None ->
        exists ob, _parse_data_object e = Some ob
          /\ obj_name ob = match head (findall_desc "TUV" e) with
                           | Some x => text x
                           | None => Some "DataObject"
                           end).
Proof.
  split; [|split; [|split; [|split; [|split; [|split]]]]].
  - apply locate_name_fallback.
  - intros e s H Hn. apply parse_protocol_service_inv in H as (_ & _ & -> & _).
    rewrite (locate_name_fallback e Hn).
    destruct (head (findall_desc "TUV" e)); reflexivity.
  - intros e d H.
    rewrite (locate_name_fallback e (no_TUV_no_name e H)), H.
    rewrite (locate_did_name_none e H). auto.
  - intros e d H Hn. apply parse_did_inv in H as (_ & _ & ->).
    rewrite (locate_did_name_none e Hn). reflexivity.
  - intros e Hn. eexists. split; [reflexivity|]. cbn [msg_name].
    rewrite (locate_name_fallback e Hn).
    destruct (head (findall_desc "TUV" e)); reflexivity.
  - intros e t Hn. eexists. split; [reflexivity|]. cbn [comp_name].
    rewrite (locate_name_fallback e Hn).
    destruct (head (findall_desc "TUV" e)); reflexivity.
  - intros e Hn. eexists. split; [reflexivity|]. cbn [obj_name].
    rewrite (locate_name_fallback e Hn).
    destruct (head (findall_desc "TUV" e)); reflexivity.
Qed.

Lemma name_locator_amended_witness :
  locate_name labelled_service_elem
  = head (findall_desc "TUV" labelled_service_elem)
  /\ text_or "DID_0x0000" (locate_did_name unnumbered_did_elem)
     = Some "DID_0x0000"
  /\ (msg_name <$> _parse_service_message localized_service_elem)
     = Some (Some "Sitzungssteuerung")
  /\ (comp_name <$> _parse_component localized_service_elem "CONSTCOMP")
     = Some (Some "Sitzungssteuerung")
  /\ (obj_name <$> _parse_data_object localized_did_elem) = Some (Some "Kennung")
  /\ (obj_name <$> _parse_data_object unnumbered_did_elem) = Some (Some "DataObject").
Proof.
  destruct name_locator_amended as (A & _ & B & _ & M & C & O).
  split; [|split; [|split; [|split; [|split]]]].
  - apply (A labelled_service_elem). reflexivity.
  - apply (B unnumbered_did_elem "DID_0x0000"). reflexivity.
  - destruct (M localized_service_elem eq_refl) as (m & -> & Hm).
    cbn [fmap option_fmap option_map]. rewrite Hm. reflexivity.
  - destruct (C localized_service_elem "CONSTCOMP" eq_refl) as (c & -> & Hc).
    cbn [fmap option_fmap option_map]. rewrite Hc. reflexivity.
  - destruct (O localized_did_elem eq_refl) as (ob & -> & Ho).
    cbn [fmap option_fmap option_map]. rewrite Ho. reflexivity.
  - destruct (O unnumbered_did_elem eq_refl) as (ob & -> & Ho).
    cbn [fmap option_fmap option_map]. rewrite Ho. reflexivity.
Defined.

(** C9 as stated fails: with [NAME/TUV] absent and two [TUV] descendants,
    the second marked en-US, the service and the DID both get the text of
    the first, German, one. *)
Lemma name_locator_counterexample :
  find_path "NAME" "TUV" localized_service_elem = None
  /\ map (fun x => (get x xml_lang, text x))
         (findall_desc "TUV" localized_service_elem)
     = [ (Some "de-DE", Some "Sitzungssteuerung");
         (Some "en-US", Some "Session control");
         (None, Some "Switches the session") ]
  /\ (svc_name <$> _parse_protocol_service localized_service_elem)
     = Some (Some "Sitzungssteuerung")
  /\ find_path "NAME" "TUV" localized_did_elem = None
  /\ map (fun x => (get x xml_lang, text x)) (findall_desc "TUV" localized_did_elem)
     = [ (Some "de-DE", Some "Kennung"); (Some "en-US", Some "Identifier") ]
  /\ (did_name <$> _parse_did localized_did_elem) = Some (Some "Kennung").
Proof. repeat split; vm_compute; reflexivity. Qed.

(** *** C10: a DID without number *)

(** C10.  A DID element without the [n] attribute is parsed: the record
    has number 0 and hex form ["0x0000"], its name is ["DID_0x0000"] when
    the element has no [TUV] descendant, and [_extract_dids] appends the
    record to the document's DID list. *)
Theorem did_without_number (did_elem : Element) :
  get did_elem "n" = None ->
  exists d, _parse_did did_elem = Some d
    /\ number d = 0
    /\ number_hex d = "0x0000"
    /\ (findall_desc "TUV" did_elem = [] -> did_name d = Some "DID_0x0000")
    /\ (forall root dids_section document,
          find_desc "DIDS" root = Some dids_section ->
          In did_elem (findall_child "DID" dids_section) ->
          exists before after,
            dids (_extract_dids root document)
            = (dids document ++ before ++ d :: after)%list).
Proof.
  intros Hn.
  assert (Hi : Py.int (get_default did_elem "n" "0") = Ok 0).
  { unfold get_default. unfold get in Hn. rewrite Hn. reflexivity. }
  destruct (parse_did_total did_elem 0 Hi) as (d & Hd & Hnum).
  exists d. split; [exact Hd|]. split; [exact Hnum|].
  pose proof (parse_did_inv _ _ Hd) as (_ & Hhex & Hname).
  rewrite Hnum in Hhex. change ("0x" ++ Py.format_0X 4 0) with "0x0000" in Hhex.
  split; [exact Hhex|]. split.
  - intros Ht. rewrite Hname, Hhex, (locate_did_name_none _ Ht). reflexivity.
  - intros root dids_section document Hs Hin.
    unfold _extract_dids. rewrite Hs. cbn [dids].
    apply in_split in Hin as (l1 & l2 & ->).
    exists (omap _parse_did l1), (omap _parse_did l2).
    rewrite omap_app. cbn [omap list_omap]. rewrite Hd. reflexivity.
Qed.

Lemma did_without_number_witness :
  exists d, _parse_did unnumbered_did_elem = Some d
    /\ number d = 0
    /\ number_hex d = "0x0000"
    /\ did_name d = Some "DID_0x0000"
    /\ dids (parse_root unnumbered_root new_document) = [d].
Proof.
  destruct (did_without_number unnumbered_did_elem eq_refl)
    as (d & Hd & Hn & Hh & Hname & Hdoc).
  exists d. split; [exact Hd|]. split; [exact Hn|]. split; [exact Hh|].
  split; [apply Hname; reflexivity|].
  vm_compute in Hd. injection Hd as <-. vm_compute. reflexivity.
Defined.

End ParserProps.

(* ===================================================================== *)
(** ** More facts about the built-ins *)
(* ===================================================================== *)

Module PyMore.
Import Spec PyFacts.

(** *** [upper] and [strip] *)

Lemma upper_char_idem c : Py.upper_char (Py.upper_char c) = Py.upper_char c.
Proof. destruct c as [[|] [|] [|] [|] [|] [|] [|] [|]]; reflexivity. Qed.

Lemma upper_char_space c : Py.is_str_space (Py.upper_char c) = Py.is_str_space c.
Proof. destruct c as [[|] [|] [|] [|] [|] [|] [|] [|]]; reflexivity. Qed.

Lemma upper_idem s : Py.upper (Py.upper s) = Py.upper s.
Proof.
  induction s as [|c s IH]; simpl; [reflexivity|].
  rewrite upper_char_idem, IH. reflexivity.
Qed.

Lemma upper_empty s : Py.upper s = "" -> s = "".
Proof. destruct s; simpl; [reflexivity | discriminate]. Qed.

Lemma lstrip_upper s :
  Py.lstrip_with Py.is_str_space (Py.upper s)
  = Py.upper (Py.lstrip_with Py.is_str_space s).
Proof.
  induction s as [|c s IH]; simpl; [reflexivity|].
  rewrite upper_char_space. destruct (Py.is_str_space c); [exact IH | reflexivity].
Qed.

Lemma rstrip_upper s :
  Py.rstrip_with Py.is_str_space (Py.upper s)
  = Py.upper (Py.rstrip_with Py.is_str_space s).
Proof.
  induction s as [|c s IH]; simpl; [reflexivity|].
  rewrite IH, upper_char_space.
  destruct (Py.rstrip_with Py.is_str_space s) as [|d r]; simpl.
  - destruct (Py.is_str_space c); reflexivity.
  - reflexivity.
Qed.

Lemma strip_upper_commute s : Py.strip (Py.upper s) = Py.upper (Py.strip s).
Proof. unfold Py.strip. rewrite lstrip_upper, rstrip_upper. reflexivity. Qed.

Lemma lstrip_clean_head s : clean_head (Py.lstrip_with Py.is_str_space s).
Proof.
  induction s as [|c s IH]; simpl; [exact I|].
  destruct (Py.is_str_space c) eqn:E; [exact IH | exact E].
Qed.

Lemma lstrip_of_clean_head s :
  clean_head s -> Py.lstrip_with Py.is_str_space s = s.
Proof. destruct s as [|c s]; simpl; [reflexivity | intros ->; reflexivity]. Qed.

Lemma rstrip_clean_head s :
  clean_head s -> clean_head (Py.rstrip_with Py.is_str_space s).
Proof.
  destruct s as [|c s]; simpl; [auto|]. intros Hc.
  destruct (Py.rstrip_with Py.is_str_space s); [rewrite Hc|]; exact Hc.
Qed.

Lemma rstrip_cons sp c s :
  Py.rstrip_with sp (String c s)
  = match Py.rstrip_with sp s with
    | EmptyString => if sp c then EmptyString else String c EmptyString
    | String d r => String c (String d r)
    end.
Proof. reflexivity. Qed.

Lemma rstrip_idem s :
  Py.rstrip_with Py.is_str_space (Py.rstrip_with Py.is_str_space s)
  = Py.rstrip_with Py.is_str_space s.
Proof.
  induction s as [|c s IH]; simpl; [reflexivity|].
  destruct (Py.rstrip_with Py.is_str_space s) as [|d r] eqn:E.
  - destruct (Py.is_str_space c) eqn:Ec; simpl; [reflexivity|].
    rewrite Ec. reflexivity.
  - rewrite rstrip_cons, IH. reflexivity.
Qed.

Lemma strip_idem s : Py.strip (Py.strip s) = Py.strip s.
Proof.
  unfold Py.strip.
  rewrite (lstrip_of_clean_head _ (rstrip_clean_head _ (lstrip_clean_head s))).
  apply rstrip_idem.
Qed.

(** Stripping and upper-casing a second time changes nothing. *)
Lemma upper_strip_idem s :
  Py.upper (Py.strip (Py.upper (Py.strip s))) = Py.upper (Py.strip s).
Proof. rewrite strip_upper_commute, strip_idem, upper_idem. reflexivity. Qed.

Lemma upper_hex_char_fixed c :
  Mapper.is_upper_hex c = true ->
  Py.upper_char c = c /\ Py.is_str_space c = false /\ is_hex_digit c = true.
Proof.
  destruct c as [[|] [|] [|] [|] [|] [|] [|] [|]];
    (intros H; vm_compute in H; try discriminate H); repeat split.
Qed.

Lemma upper_hex_is_hex s :
  Py.all_chars Mapper.is_upper_hex s = true -> Py.all_chars is_hex_digit s = true.
Proof. apply all_chars_impl. intros c Hc. apply (upper_hex_char_fixed c Hc). Qed.

Lemma upper_hex_fixed s :
  Py.all_chars Mapper.is_upper_hex s = true -> Py.upper s = s.
Proof.
  induction s as [|c s IH]; simpl; [reflexivity|].
  rewrite andb_true_iff. intros [Hc Hs].
  destruct (upper_hex_char_fixed c Hc) as (-> & _). rewrite (IH Hs). reflexivity.
Qed.

(** *** [replace(' ', '')] leaves no blank *)

Lemma remove_blank_fuel fuel : forall s,
  (String.length s <= fuel)%nat ->
  Py.all_chars (fun c => negb (Ascii.eqb " " c)) (Py.remove_all_fuel fuel " " s) = true.
Proof.
  induction fuel as [|fuel IH]; intros s Hlen.
  - destruct s; [reflexivity | simpl in Hlen; lia].
  - destruct s as [|c s]; [reflexivity|].
    simpl in Hlen. cbn [Py.remove_all_fuel Py.startswith String.length Py.drop].
    rewrite andb_true_r.
    destruct (Ascii.eqb " " c) eqn:E.
    + apply IH. lia.
    + cbn [Py.all_chars]. rewrite E. simpl. apply IH. lia.
Qed.

Lemma remove_blank s :
  Py.all_chars (fun c => negb (Ascii.eqb " " c)) (Py.remove_all " " s) = true.
Proof. apply remove_blank_fuel. lia. Qed.

(** *** Texts made of digits are read by [int] *)

Lemma digit_value_nonneg c : 0 <= Py.digit_value c.
Proof. destruct c as [[|] [|] [|] [|] [|] [|] [|] [|]]; vm_compute; discriminate. Qed.

Lemma scan_all_digits base s : forall acc k,
  0 <= base -> 0 <= acc ->
  Py.all_chars (is_digit_in base) s = true ->
  exists v, Py.scan_digits base false acc k s = Some (v, (k + String.length s)%nat, "")
            /\ 0 <= v.
Proof.
  induction s as [|c s IH]; intros acc k Hb Ha; cbn [Py.all_chars].
  - intros _. exists acc. simpl. rewrite Nat.add_0_r. auto.
  - rewrite andb_true_iff. unfold is_digit_in at 1.
    rewrite andb_true_iff, negb_true_iff. intros [[Hu Hd] Hs].
    rewrite (scan_digit_step _ _ _ _ _ _ Hu Hd).
    destruct (IH (acc * base + Py.digit_value c) (S k) Hb) as (v & Hv & Hv0);
      [pose proof (digit_value_nonneg c); nia | exact Hs |].
    exists v. rewrite Hv. cbn [String.length].
    replace (S k + String.length s)%nat with (k + S (String.length s))%nat by lia.
    auto.
Qed.

Lemma decimal_is_digit c : is_decimal_digit c = true -> is_digit_in 10 c = true.
Proof. destruct c as [[|] [|] [|] [|] [|] [|] [|] [|]];
  (intros H; vm_compute in H; try discriminate H); reflexivity. Qed.

Lemma upper_hex_is_digit c : Mapper.is_upper_hex c = true -> is_digit_in 16 c = true.
Proof. destruct c as [[|] [|] [|] [|] [|] [|] [|] [|]];
  (intros H; vm_compute in H; try discriminate H); reflexivity. Qed.

(** [int] on a text that begins with a decimal digit is the digit scan,
    followed by the limit on the number of digits. *)
Lemma int_digit_head c s :
  is_decimal_digit c = true ->
  Py.int (String c s)
  = match Py.scan_digits 10 false 0 0%nat (String c s) with
    | None => Raise ValueError
    | Some (v, k, rest) =>
        if (k =? 0)%nat then Raise ValueError
        else if Py.max_str_digits <? Z.of_nat k then Raise ValueError
        else match Py.lstrip_with Py.is_c_space rest with
             | EmptyString => Ok v
             | String _ _ => Raise ValueError
             end
    end.
Proof.
  destruct s as [|x s];
    destruct c as [[|] [|] [|] [|] [|] [|] [|] [|]];
    (intros H; vm_compute in H; try discriminate H); reflexivity.
Qed.

(** A run of decimal digits within the limit is read by [int]. *)
Lemma int_decimal s :
  s <> "" -> Py.all_chars is_decimal_digit s = true ->
  Z.of_nat (String.length s) <= Py.max_str_digits ->
  exists n, Py.int s = Ok n /\ 0 <= n.
Proof.
  intros Hne Hs Hlen. destruct s as [|c s]; [congruence|].
  pose proof Hs as Hs'. cbn [Py.all_chars] in Hs'.
  apply andb_true_iff in Hs' as [Hc _].
  rewrite (int_digit_head c s Hc).
  destruct (scan_all_digits 10 (String c s) 0 0%nat) as (v & Hv & Hv0); [lia | lia | |].
  { revert Hs. apply all_chars_impl, decimal_is_digit. }
  rewrite Hv. cbn [Nat.add Nat.eqb String.length].
  destruct (Z.ltb_spec Py.max_str_digits (Z.of_nat (S (String.length s)))) as [L|L].
  - cbn [String.length] in Hlen. lia.
  - cbn. exists v. auto.
Qed.

(** A run of decimal digits beyond the limit is refused. *)
Lemma int_decimal_long s :
  Py.all_chars is_decimal_digit s = true ->
  Py.max_str_digits < Z.of_nat (String.length s) ->
  Py.int s = Raise ValueError.
Proof.
  intros Hs Hlen. destruct s as [|c s]; [vm_compute in Hlen; discriminate Hlen|].
  pose proof Hs as Hs'. cbn [Py.all_chars] in Hs'.
  apply andb_true_iff in Hs' as [Hc _].
  rewrite (int_digit_head c s Hc).
  destruct (scan_all_digits 10 (String c s) 0 0%nat) as (v & Hv & Hv0); [lia | lia | |].
  { revert Hs. apply all_chars_impl, decimal_is_digit. }
  rewrite Hv. cbn [Nat.add Nat.eqb String.length].
  destruct (Z.ltb_spec Py.max_str_digits (Z.of_nat (S (String.length s)))) as [L|L].
  - reflexivity.
  - cbn [String.length] in Hlen. lia.
Qed.

(** After [0X] too, [int(s, 16)] is the digit scan of the rest. *)
Lemma int16_upper_prefixed c s :
  (Py.digit_value c <? 16) = true ->
  Py.int16 (String "0" (String "X" (String c s)))
  = match Py.scan_digits 16 false 0 0%nat (String c s) with
    | None => Raise ValueError
    | Some (v, k, rest) =>
        if (k =? 0)%nat then Raise ValueError
        else match Py.lstrip_with Py.is_c_space rest with
             | EmptyString => Ok v
             | String _ _ => Raise ValueError
             end
    end.
Proof.
  destruct c as [[|] [|] [|] [|] [|] [|] [|] [|]];
    (intros H; vm_compute in H; try discriminate H); reflexivity.
Qed.

(** A prefixed run of upper-case hex digits is read by [int(s, 16)],
    whichever case the [x] has. *)
Lemma int16_hex u :
  u <> "" -> Py.all_chars Mapper.is_upper_hex u = true ->
  exists n, 0 <= n
    /\ Py.int16 ("0x" ++ u) = Ok n /\ Py.int16 ("0X" ++ u) = Ok n.
Proof.
  intros Hne Hu. destruct u as [|c u]; [congruence|].
  pose proof Hu as Hu'. cbn [Py.all_chars] in Hu'.
  apply andb_true_iff in Hu' as [Hc _].
  pose proof (upper_hex_is_digit c Hc) as Hd. unfold is_digit_in in Hd.
  apply andb_true_iff in Hd as [_ Hd].
  destruct (scan_all_digits 16 (String c u) 0 0%nat) as (v & Hv & Hv0); [lia | lia | |].
  { revert Hu. apply all_chars_impl, upper_hex_is_digit. }
  exists v. split; [exact Hv0|].
  change ("0x" ++ String c u) with (String "0" (String "x" (String c u))).
  change ("0X" ++ String c u) with (String "0" (String "X" (String c u))).
  rewrite (int16_prefixed c u Hd), (int16_upper_prefixed c u Hd), Hv. cbn. auto.
Qed.

End PyMore.

(* ===================================================================== *)
(** ** Further properties of the mapper *)
(* ===================================================================== *)

Module MapperMore.
Import Mapper Spec Samples PyFacts PyMore MapperProps.

(** *** Repeated normalisation *)

Lemma upper_char_not_x c : Ascii.eqb "x" (Py.upper_char c) = false.
Proof. destruct c as [[|] [|] [|] [|] [|] [|] [|] [|]]; reflexivity. Qed.

Lemma upper_no_lower_prefix s : Py.startswith "0x" (Py.upper s) = false.
Proof.
  destruct s as [|a [|b s]]; cbn [Py.startswith Py.upper]; try reflexivity.
  - apply andb_false_r.
  - rewrite upper_char_not_x. apply andb_false_r.
Qed.

(** The three outcomes of one pass over a non-empty text. *)
Lemma normalize_hex_cases s :
  s <> "" ->
  let u := Py.upper (Py.strip s) in
  (Py.startswith "0X" u = true /\ _normalize_hex s = u)
  \/ (Py.startswith "0X" u = false /\ Py.all_chars is_upper_hex u = true
      /\ _normalize_hex s = "0x" ++ u)
  \/ (Py.startswith "0X" u = false /\ Py.all_chars is_upper_hex u = false
      /\ _normalize_hex s = u).
Proof.
  intros Hne. destruct s as [|c s]; [congruence|]. cbv zeta.
  rewrite normalize_hex_unfold. cbv zeta.
  destruct (Py.startswith "0X" _); [left; auto|].
  destruct (Py.all_chars is_upper_hex _); [right; left | right; right]; auto.
Qed.

(** A stripped, upper-cased text that carries [0X] or is not hex comes
    back unchanged. *)
Lemma normalize_hex_fixed u :
  Py.upper (Py.strip u) = u ->
  Py.startswith "0X" u = true \/ Py.all_chars is_upper_hex u = false ->
  _normalize_hex u = u.
Proof.
  intros Hu Hc. destruct u as [|c u]; [reflexivity|].
  rewrite normalize_hex_unfold. cbv zeta. rewrite Hu.
  destruct Hc as [-> | Hh]; [reflexivity|].
  rewrite Hh. destruct (Py.startswith "0X" _); reflexivity.
Qed.

Lemma upper_strip_prefixed p u :
  Py.all_chars is_upper_hex u = true ->
  (p = "0x" \/ p = "0X") ->
  Py.upper (Py.strip (p ++ u)) = "0X" ++ u.
Proof.
  intros Hu Hp.
  assert (Hs : Py.strip (p ++ u) = p ++ u).
  { apply strip_no_space.
    assert (H : Py.all_chars (fun c => negb (Py.is_str_space c)) u = true).
    { revert Hu. apply all_chars_impl. intros c Hc.
      destruct (upper_hex_char_fixed c Hc) as (_ & -> & _). reflexivity. }
    destruct Hp as [-> | ->]; cbn; exact H. }
  rewrite Hs.
  assert (E : Py.upper (p ++ u) = "0X" ++ Py.upper u)
    by (destruct Hp as [-> | ->]; reflexivity).
  rewrite E, (upper_hex_fixed u Hu). reflexivity.
Qed.

Lemma normalize_hex_prefixed p u :
  Py.all_chars is_upper_hex u = true ->
  (p = "0x" \/ p = "0X") ->
  _normalize_hex (p ++ u) = "0X" ++ u.
Proof.
  intros Hu Hp.
  assert (E : _normalize_hex (p ++ u)
              = let v := Py.upper (Py.strip (p ++ u)) in
                if negb (Py.startswith "0X" v)
                then if Py.all_chars is_upper_hex v then "0x" ++ v else v
                else v).
  { destruct Hp as [-> | ->]; reflexivity. }
  rewrite E. cbv zeta. rewrite (upper_strip_prefixed p u Hu Hp). reflexivity.
Qed.

(** X1.  Normalising stabilises after two passes, and the second pass
    changes the result of the first exactly when the first one added the
    prefix ["0x"]. *)
Theorem normalize_hex_stabilises (s : string) :
  _normalize_hex (_normalize_hex (_normalize_hex s)) = _normalize_hex (_normalize_hex s)
  /\ (_normalize_hex (_normalize_hex s) = _normalize_hex s
      <-> Py.startswith "0x" (_normalize_hex s) = false).
Proof.
  destruct s as [|c0 s0] eqn:Es; [split; [reflexivity | split; reflexivity]|].
  rewrite <- Es. assert (Hne : s <> "") by (rewrite Es; discriminate).
  clear Es c0 s0.
  destruct (normalize_hex_cases s Hne) as [(Hp & ->) | [(Hp & Hh & ->) | (Hp & Hh & ->)]].
  - rewrite (normalize_hex_fixed _ (upper_strip_idem s) (or_introl Hp)).
    split; [apply (normalize_hex_fixed _ (upper_strip_idem s) (or_introl Hp))|].
    split; [intros _; apply upper_no_lower_prefix | reflexivity].
  - rewrite (normalize_hex_prefixed "0x" _ Hh (or_introl eq_refl)).
    rewrite (normalize_hex_prefixed "0X" _ Hh (or_intror eq_refl)).
    split; [reflexivity|]. split; [discriminate | cbn; discriminate].
  - rewrite (normalize_hex_fixed _ (upper_strip_idem s) (or_intror Hh)).
    split; [apply (normalize_hex_fixed _ (upper_strip_idem s) (or_intror Hh))|].
    split; [intros _; apply upper_no_lower_prefix | reflexivity].
Qed.

(** *** Hex service IDs *)

Lemma normalize_hex_of_hex s :
  s <> "" -> Py.all_chars is_hex_digit s = true ->
  _normalize_hex s = "0x" ++ Py.upper s.
Proof.
  intros Hne Hs. destruct s as [|c s]; [congruence|].
  rewrite normalize_hex_unfold. cbv zeta.
  rewrite (strip_hex _ Hs), (upper_hex_no_prefix _ Hs), (upper_hex _ Hs).
  reflexivity.
Qed.

Lemma normalize_hex_of_prefixed_hex s :
  Py.all_chars is_hex_digit s = true ->
  _normalize_hex ("0x" ++ s) = "0X" ++ Py.upper s.
Proof.
  intros Hs. change ("0x" ++ s) with (String "0" (String "x" s)).
  rewrite normalize_hex_unfold. cbv zeta.
  assert (Hst : Py.strip (String "0" (String "x" s)) = String "0" (String "x" s)).
  { apply strip_no_space. cbn [Py.all_chars].
    replace (Py.all_chars (fun c => negb (Py.is_str_space c)) s) with true;
      [reflexivity|].
    symmetry. revert Hs. apply all_chars_impl.
    intros c Hc. rewrite (hex_digit_not_space c Hc). reflexivity. }
  rewrite Hst. reflexivity.
Qed.

(** X2.  A service ID made of hex digits, with or without [0x], normalises
    to a text [int(_, 16)] reads, so its positive-response ID is computed
    and never the [0x7F] default; both spellings give the same number. *)
Theorem hex_service_id_parses (s : string) :
  s <> "" -> Py.all_chars is_hex_digit s = true ->
  exists n, 0 <= n
    /\ Py.int16 (_normalize_service_id s) = Ok n
    /\ Py.int16 (_normalize_service_id ("0x" ++ s)) = Ok n
    /\ _get_positive_response_id (_normalize_service_id s)
       = "0x" ++ Py.format_0X 2 (n + 0x40)
    /\ _get_positive_response_id (_normalize_service_id ("0x" ++ s))
       = "0x" ++ Py.format_0X 2 (n + 0x40).
Proof.
  intros Hne Hs.
  rewrite (normalize_service_id_nonempty s Hne), (normalize_hex_of_hex s Hne Hs).
  assert (Hu : Py.all_chars is_upper_hex (Py.upper s) = true) by (apply upper_hex, Hs).
  assert (Hune : Py.upper s <> "") by (intros E; apply Hne, upper_empty, E).
  rewrite (normalize_service_id_nonempty ("0x" ++ s)) by discriminate.
  rewrite (normalize_hex_of_prefixed_hex s Hs).
  destruct (int16_hex (Py.upper s) Hune Hu) as (n & Hn & Hl & Hup).
  exists n. unfold _get_positive_response_id. rewrite Hl, Hup. auto 6.
Qed.

Lemma hex_service_id_parses_witness :
  exists n, 0 <= n
    /\ Py.int16 (_normalize_service_id "3e") = Ok n
    /\ Py.int16 (_normalize_service_id ("0x" ++ "3e")) = Ok n
    /\ _get_positive_response_id (_normalize_service_id "3e")
       = "0x" ++ Py.format_0X 2 (n + 0x40)
    /\ _get_positive_response_id (_normalize_service_id ("0x" ++ "3e"))
       = "0x" ++ Py.format_0X 2 (n + 0x40).
Proof. apply (hex_service_id_parses "3e"); [discriminate | reflexivity]. Defined.

(** X3.  A positive-response ID within a byte reads back, in base 16, as
    the request ID plus [0x40]. *)
Theorem positive_response_id_reads_back (sid : string) (n : Z) :
  Py.int16 sid = Ok n -> 0 <= n + 0x40 < 256 ->
  Py.int16 (_get_positive_response_id sid) = Ok (n + 0x40).
Proof.
  intros Hs Hr. unfold _get_positive_response_id. rewrite Hs.
  pose proof (format_02X_byte (n + 0x40) Hr) as Hc. unfold check_02X in Hc.
  apply andb_true_iff in Hc as [_ Hc]. apply result_is_true, Hc.
Qed.

Lemma positive_response_id_reads_back_witness :
  Py.int16 (_get_positive_response_id "0x22") = Ok (0x22 + 0x40).
Proof.
  apply (positive_response_id_reads_back "0x22" 0x22); [reflexivity | lia].
Defined.

(** *** Names and identifiers of the ODX records *)

Lemma uds_services_keys k v :
  uds_services !! k = Some v -> Py.startswith "0X" k = false.
Proof.
  intros H. unfold uds_services in H. apply elem_of_list_to_map_2 in H.
  repeat (apply elem_of_cons in H as [[= -> _] | H]; [reflexivity|]).
  inversion H.
Qed.


(** X4.  The name of a converted service is the standard UDS name of its
    normalised ID when the table has one, and the source name otherwise;
    the synthesised [Service_<hex>] name is never used, and an ID written
    with a [0x] prefix, which normalises to [0X..], never gets the standard
    name. *)
Theorem converted_service_name (service : Service) (o : ODXService) :
  _convert_service service = Ok (Some o) ->
  match uds_services !! service_id o with
  | Some standard => odx_name o = standard
  | None => name service = Some (odx_name o)
  end
  /\ (Py.startswith "0X" (service_id o) = true -> name service = Some (odx_name o)).
Proof.
  intros H. apply convert_service_inv in H as (_ & Hn & tail & _ & ->).
  cbv zeta. cbn [service_id odx_name].
  generalize (_normalize_service_id (or_else (id service) "")). intros k.
  assert (E : forall sid, uds_services !! sid = None ->
                name service = Some (_get_service_name sid (name service))).
  { intros sid Hs. unfold _get_service_name. rewrite Hs.
    destruct (name service) as [[|c n]|]; try discriminate Hn. reflexivity. }
  split.
  - destruct (uds_services !! k) as [std|] eqn:Hs; [|apply E, Hs].
    unfold _get_service_name. rewrite Hs. reflexivity.
  - intros Hp. apply E.
    destruct (uds_services !! k) as [std|] eqn:Hs; [|reflexivity].
    apply uds_services_keys in Hs. congruence.
Qed.

Lemma converted_service_name_witness :
  exists o, _convert_service prefixed_service = Ok (Some o)
    /\ (Py.startswith "0X" (service_id o) = true ->
        name prefixed_service = Some (odx_name o)).
Proof.
  destruct (_convert_service prefixed_service) as [[o|]|e] eqn:E;
    [|vm_compute in E; discriminate E | vm_compute in E; discriminate E].
  exists o. split; [reflexivity|].
  apply (converted_service_name prefixed_service o E).
Defined.

(** X5.  The [id] of a converted service is its name with every blank
    removed, so it holds no blank. *)
Theorem converted_service_id_has_no_blank (service : Service) (o : ODXService) :
  _convert_service service = Ok (Some o) ->
  odx_id o = Py.remove_all " " (odx_name o)
  /\ Py.all_chars (fun c => negb (Ascii.eqb " " c)) (odx_id o) = true.
Proof.
  intros H. apply convert_service_inv in H as (_ & _ & tail & _ & ->). cbn.
  split; [reflexivity | apply remove_blank].
Qed.

Lemma converted_service_id_has_no_blank_witness :
  exists o, _convert_service read_did_service = Ok (Some o)
    /\ Py.all_chars (fun c => negb (Ascii.eqb " " c)) (odx_id o) = true.
Proof.
  destruct (_convert_service read_did_service) as [[o|]|e] eqn:E;
    [|vm_compute in E; discriminate E | vm_compute in E; discriminate E].
  exists o. split; [reflexivity|].
  apply (converted_service_id_has_no_blank read_did_service o E).
Defined.

Lemma convert_data_identifier_fields did o :
  _convert_data_identifier did = Some o ->
  odx_identifier o = _normalize_hex (or_else (identifier did) "")
  /\ odx_did_id o = "DID_" ++ Py.remove_all "0x" (odx_identifier o)
  /\ did_name did = Some (odx_did_name o)
  /\ structure o = signals did.
Proof.
  unfold _convert_data_identifier.
  destruct (truthy (identifier did)); [|discriminate].
  destruct (did_name did) as [[|c n]|]; try discriminate.
  intros H. injection H as <-. repeat split; reflexivity.
Qed.

(** X6.  For a DID whose identifier is made of hex digits without prefix,
    the ODX identifier is ["0x"] and the upper-cased digits and the ODX id
    is ["DID_"] and the same digits.  When a service that is converted has a
    [DataIdentifier] response parameter carrying that ODX identifier, the
    response list of the ODX service holds a [DataIdentifier] entry with
    that value, and every such entry is immediately followed by a [Data]
    entry whose [structure_ref] is ["DOP."] followed by the ODX id of the
    DID. *)
Theorem did_reference_resolves (did : DataIdentifier) (o : ODXDataIdentifier)
    (h : string) (service : Service) (os : ODXService) :
  identifier did = Some h -> h <> "" -> Py.all_chars is_hex_digit h = true ->
  _convert_data_identifier did = Some o ->
  _convert_service service = Ok (Some os) ->
  odx_identifier o = "0x" ++ Py.upper h
  /\ odx_did_id o = "DID_" ++ Py.upper h
  /\ (forall param, In param (response_params service) ->
        dict_get param "type" = PyStr "DataIdentifier" ->
        dict_get param "value" = PyStr (odx_identifier o) ->
        exists (i : nat) (p : gmap string pyval),
          odx_response_params os !! i = Some p
          /\ dict_get p "type" = PyStr "DataIdentifier"
          /\ dict_get p "value" = PyStr (odx_identifier o))
  /\ (forall (i : nat) (p : gmap string pyval),
        odx_response_params os !! i = Some p ->
        dict_get p "type" = PyStr "DataIdentifier" ->
        dict_get p "value" = PyStr (odx_identifier o) ->
        exists q,
          odx_response_params os !! S i = Some q
          /\ dict_get q "type" = PyStr "Data"
          /\ dict_get q "structure_ref" = PyStr ("DOP." ++ odx_did_id o)).
Proof.
  intros Hi Hne Hh Ho Hs.
  destruct (convert_data_identifier_fields did o Ho) as (Hid & Hdid & _).
  rewrite Hi in Hid. destruct h as [|c h]; [congruence|].
  change (or_else (Some (String c h)) "") with (String c h) in Hid.
  rewrite (normalize_hex_of_hex _ Hne Hh) in Hid.
  assert (Hr : Py.remove_all "0x" ("0x" ++ Py.upper (String c h)) = Py.upper (String c h)).
  { apply remove_0x_prefixed, upper_hex_is_hex, upper_hex, Hh. }
  rewrite Hdid, Hid. split; [reflexivity|].
  split; [exact (f_equal (String.append "DID_") Hr)|].
  apply convert_service_inv in Hs as (_ & _ & tail & Ht & ->).
  apply response_loop_filter in Ht as ->. cbn [odx_response_params].
  split.
  - intros param Hin Hty Hval.
    assert (Hf : In param (List.filter is_DataIdentifier (response_params service))).
    { apply filter_In. split; [exact Hin | apply is_DataIdentifier_true, Hty]. }
    destruct (did_pairs_emitted _ _ Hf) as (j & Hj & _).
    exists (S j). eexists. split; [exact Hj|].
    split; [apply DataIdentifier_param_type|].
    rewrite DataIdentifier_param_value. exact Hval.
  - intros i p Hp Hty Hval. apply is_DataIdentifier_true in Hty.
    destruct i as [|i].
    { cbn in Hp. injection Hp as <-. rewrite ServiceId_param_not_did in Hty.
      discriminate. }
    cbn in Hp. eexists. split; [|split].
    + cbn. apply did_pairs_adjacent; eassumption.
    + apply Data_param_type.
    + rewrite Data_param_structure_ref, Hval. reflexivity.
Qed.

Lemma did_reference_resolves_witness :
  exists o os, _convert_data_identifier serial_number_did = Some o
    /\ _convert_service read_serial_number_service = Ok (Some os)
    /\ odx_identifier o = "0xF18C" /\ odx_did_id o = "DID_F18C"
    /\ exists (i : nat) (p q : gmap string pyval),
         odx_response_params os !! i = Some p
         /\ dict_get p "value" = PyStr "0xF18C"
         /\ odx_response_params os !! S i = Some q
         /\ dict_get q "structure_ref" = PyStr "DOP.DID_F18C".
Proof.
  destruct (_convert_data_identifier serial_number_did) as [o|] eqn:Eo;
    [|vm_compute in Eo; discriminate Eo].
  destruct (_convert_service read_serial_number_service) as [[os|]|e] eqn:Es;
    [|vm_compute in Es; discriminate Es | vm_compute in Es; discriminate Es].
  exists o, os. split; [reflexivity|]. split; [reflexivity|].
  destruct (did_reference_resolves serial_number_did o "f18c"
              read_serial_number_service os eq_refl
              ltac:(discriminate) eq_refl Eo Es) as (A & B & C & D).
  split; [exact A|]. split; [exact B|].
  rewrite A in C, D. rewrite B in D.
  destruct (C {[ "type" := PyStr "DataIdentifier"; "value" := PyStr "0xF18C" ]})
    as (i & p & Hp & Hty & Hval);
    [left; reflexivity | vm_compute; reflexivity | vm_compute; reflexivity |].
  destruct (D i p Hp Hty Hval) as (q & Hq & _ & Href).
  exists i, p, q. auto.
Defined.

(** *** Exceptions of the mapper *)

Lemma response_loop_raises params :
  response_loop params
  = if existsb bad_value params
    then Raise AttributeError
    else Ok (flat_map did_pair (List.filter is_DataIdentifier params)).
Proof.
  induction params as [|p ps IH]; [reflexivity|].
  cbn [response_loop existsb List.filter]. unfold bad_value at 1.
  destruct (is_DataIdentifier p) eqn:Hd; cbn [andb orb]; [|exact IH].
  rewrite IH. clear IH.
  assert (Hp : get_replace p "value" "0x"
               = match p !! "value" with
                 | Some (PyStr _) | None =>
                     Ok (Py.remove_all "0x" (value_text (dict_get p "value")))
                 | Some _ => Raise AttributeError
                 end).
  { unfold get_replace, dict_get. destruct (p !! "value") as [[| v | n]|]; reflexivity. }
  rewrite Hp.
  destruct (p !! "value") as [[| v | n]|]; destruct (existsb bad_value ps);
    reflexivity.
Qed.

Lemma convert_service_raise_cases (service : Service) :
  (forall e, _convert_service service = Raise e -> e = AttributeError)
  /\ (_convert_service service = Raise AttributeError
      <-> service_kept service = true
          /\ existsb bad_value (response_params service) = true).
Proof.
  unfold _convert_service, service_kept.
  rewrite response_loop_raises.
  destruct (truthy (id service)), (truthy (name service)); cbn;
    try (split; [discriminate | split; [discriminate | intros [[=] _]]]).
  destruct (existsb bad_value (response_params service)); cbn.
  - split; [congruence | split; auto].
  - split; [discriminate | split; [discriminate | intros [_ [=]]]].
Qed.

(** X7.  [_convert_service] raises exactly when the service has id and
    name and one of its [DataIdentifier] response parameters has a ['value']
    that is present and not a string; the exception is [AttributeError].
    Request parameters never make it raise. *)
Theorem convert_service_raises (service : Service) :
  (forall e, _convert_service service = Raise e -> e = AttributeError)
  /\ (_convert_service service = Raise AttributeError
      <-> service_kept service = true
          /\ existsb bad_value (response_params service) = true).
Proof. exact (convert_service_raise_cases service). Qed.

Lemma convert_service_raises_witness :
  _convert_service faulty_service = Raise AttributeError.
Proof.
  apply (proj2 (convert_service_raises faulty_service)). split; reflexivity.
Defined.

Lemma convert_services_raises l :
  (exists os, convert_services l = Ok os)
  \/ (convert_services l = Raise AttributeError
      /\ exists s, In s l /\ _convert_service s = Raise AttributeError).
Proof.
  induction l as [|s l IH]; [left; eexists; reflexivity|].
  cbn [convert_services].
  destruct (_convert_service s) as [r|e] eqn:Hs.
  - destruct IH as [[os ->] | (-> & s' & Hin & Hr)].
    + left. eexists. reflexivity.
    + right. split; [reflexivity|]. exists s'. split; [right; exact Hin | exact Hr].
  - pose proof (proj1 (convert_service_raise_cases s) e Hs) as ->.
    right. split; [reflexivity|]. exists s. split; [left; reflexivity | exact Hs].
Qed.

Lemma convert_services_ok l : forall os,
  convert_services l = Ok os ->
  forall s, In s l -> exists r, _convert_service s = Ok r.
Proof.
  induction l as [|s l IH]; intros os H s' Hin; [destruct Hin|].
  cbn [convert_services] in H.
  destruct (_convert_service s) as [r|e] eqn:Hs; [|discriminate H].
  destruct (convert_services l) as [t|e] eqn:Ht; [|discriminate H].
  destruct Hin as [<- | Hin]; [eauto | exact (IH t eq_refl s' Hin)].
Qed.

(** X8.  The conversion of a document raises exactly when one of its
    services has id, name and such a response parameter; the exception is
    [AttributeError] and no ODX document is produced, whatever the other
    services and the DIDs are. *)
Theorem convert_diagnostic_data_raises (data : DiagnosticData) (ecu_name : string) :
  (_convert_diagnostic_data data ecu_name = Raise AttributeError
   <-> exists s, In s (services data)
         /\ service_kept s = true
         /\ existsb bad_value (response_params s) = true)
  /\ (forall e, _convert_diagnostic_data data ecu_name = Raise e -> e = AttributeError).
Proof.
  unfold _convert_diagnostic_data.
  destruct (convert_services_raises (services data))
    as [[os Hos] | (Hr & s & Hin & Hs)].
  - rewrite Hos. cbn. split; [|discriminate]. split; [discriminate|].
    intros (s & Hin & Hk & Hb).
    destruct (convert_services_ok _ _ Hos s Hin) as [r Hr].
    pose proof (proj2 (proj2 (convert_service_raise_cases s)) (conj Hk Hb)) as Hx.
    congruence.
  - rewrite Hr. cbn. split; [|congruence]. split; [|reflexivity].
    intros _. exists s. split; [exact Hin|].
    apply (proj2 (convert_service_raise_cases s)), Hs.
Qed.

Lemma convert_diagnostic_data_raises_witness :
  _convert_diagnostic_data faulty_data "ECU" = Raise AttributeError.
Proof.
  apply (proj1 (convert_diagnostic_data_raises faulty_data "ECU")).
  exists faulty_service. split; [right; left; reflexivity|]. split; reflexivity.
Defined.

(** *** Order and number of the ODX records *)

Lemma convert_service_none service :
  _convert_service service = Ok None -> service_kept service = false.
Proof.
  unfold _convert_service, service_kept.
  destruct (truthy (id service)), (truthy (name service)); cbn; try reflexivity.
  destruct (response_loop _); discriminate.
Qed.

Lemma convert_services_ids l : forall os,
  convert_services l = Ok os ->
  map service_id os
  = map (fun s => _normalize_service_id (or_else (id s) ""))
        (List.filter service_kept l).
Proof.
  induction l as [|s l IH]; intros os H; cbn [convert_services] in H.
  - injection H as <-. reflexivity.
  - destruct (_convert_service s) as [r|e] eqn:Hs; [|discriminate H].
    destruct (convert_services l) as [t|e] eqn:Ht; [|discriminate H].
    cbn in H. injection H as <-. cbn [List.filter].
    destruct r as [o|].
    + destruct (convert_service_inv _ _ Hs) as (Hi & Hn & tail & _ & ->).
      unfold service_kept at 1. rewrite Hi, Hn. cbn. rewrite (IH t eq_refl).
      reflexivity.
    + rewrite (convert_service_none _ Hs). apply IH. reflexivity.
Qed.

Lemma convert_dids_identifiers l :
  map odx_identifier (omap _convert_data_identifier l)
  = map (fun d => _normalize_hex (or_else (identifier d) ""))
        (List.filter did_kept l).
Proof.
  induction l as [|d l IH]; [reflexivity|].
  cbn [omap list_omap List.filter].
  destruct (_convert_data_identifier d) as [o|] eqn:Hd.
  - destruct (convert_data_identifier_inv _ _ Hd) as [Hi Hn].
    destruct (convert_data_identifier_fields _ _ Hd) as (Hid & _).
    unfold did_kept at 1. rewrite Hi, Hn. cbn. rewrite Hid, <- IH. reflexivity.
  - assert (Hk : did_kept d = false).
    { unfold did_kept. unfold _convert_data_identifier in Hd.
      destruct (truthy (identifier d)), (truthy (did_name d));
        cbn in *; congruence. }
    rewrite Hk. exact IH.
Qed.

(** X9.  When the conversion of a document succeeds, the ODX services are
    the source services that have id and name, in their order, one for one,
    each with its normalised ID; the ODX DIDs are the source DIDs that have
    identifier and name, in their order, each with its normalised
    identifier; the ECU name is passed through and the version is
    ["1.0.0"]. *)
Theorem convert_diagnostic_data_order (data : DiagnosticData) (ecu_name : string)
    (doc : ODXDocument) :
  _convert_diagnostic_data data ecu_name = Ok doc ->
  map service_id (odx_services doc)
  = map (fun s => _normalize_service_id (or_else (id s) ""))
        (List.filter service_kept (services data))
  /\ map odx_identifier (odx_data_identifiers doc)
     = map (fun d => _normalize_hex (or_else (identifier d) ""))
           (List.filter did_kept (data_identifiers data))
  /\ odx_ecu_name doc = ecu_name
  /\ odx_version doc = "1.0.0".
Proof.
  unfold _convert_diagnostic_data.
  destruct (convert_services (services data)) as [os|e] eqn:Hos; [|discriminate].
  cbn. intros [= <-]. cbn.
  split; [apply convert_services_ids, Hos|].
  split; [apply convert_dids_identifiers|]. split; reflexivity.
Qed.

Lemma convert_diagnostic_data_order_witness :
  exists doc, _convert_diagnostic_data mixed_data "ECU" = Ok doc
    /\ map service_id (odx_services doc)
       = map (fun s => _normalize_service_id (or_else (id s) ""))
             (List.filter service_kept (services mixed_data))
    /\ map odx_identifier (odx_data_identifiers doc)
       = map (fun d => _normalize_hex (or_else (identifier d) ""))
             (List.filter did_kept (data_identifiers mixed_data)).
Proof.
  destruct (_convert_diagnostic_data mixed_data "ECU") as [doc|e] eqn:E;
    [|vm_compute in E; discriminate E].
  exists doc. split; [reflexivity|].
  destruct (convert_diagnostic_data_order mixed_data "ECU" doc E) as (A & B & _).
  split; [exact A | exact B].
Defined.

(** *** No empty field *)






End MapperMore.

(* ===================================================================== *)
(** ** Further properties of the parser *)
(* ===================================================================== *)

Module ParserMore.
Import ET Parser Spec Samples PyFacts PyMore ParserProps.

(** *** Lists built by the loops *)

Lemma omap_total_map {A B C : Type} (f : A -> option B) (g : B -> C) (g' : A -> C)
    (l : list A) :
  (forall x, In x l -> exists y, f x = Some y /\ g y = g' x) ->
  map g (omap f l) = map g' l.
Proof.
  induction l as [|x l IH]; intros H; [reflexivity|].
  cbn [omap list_omap map].
  destruct (H x (or_introl eq_refl)) as (y & -> & Hy).
  cbn [map]. rewrite Hy, IH; [reflexivity|].
  intros z Hz. apply H. right. exact Hz.
Qed.

Lemma findall_desc_tag t e x : In x (findall_desc t e) -> tag x = t.
Proof.
  unfold findall_desc. intros H. apply filter_In in H as [_ H].
  apply String.eqb_eq, H.
Qed.

Lemma parse_components_fields msg_elem t :
  map comp_id (parse_components msg_elem t)
  = map (fun c => get_default c "id" "") (findall_desc t msg_elem)
  /\ map component_type (parse_components msg_elem t)
     = map tag (findall_desc t msg_elem)
  /\ map value (parse_components msg_elem t)
     = map (fun c => get_default c "v" "") (findall_desc t msg_elem).
Proof.
  unfold parse_components. repeat split; apply omap_total_map; intros c Hc;
    eexists; (split; [reflexivity|]); cbn; try reflexivity.
  symmetry. apply (findall_desc_tag _ _ _ Hc).
Qed.

(** X11.  A message element is always parsed, and its components are the
    [CONSTCOMP], then the [STATICCOMP], then the [SIMPLEPROXYCOMP]
    descendants, each group in document order, none left out: ids, kinds
    and literal values follow that order. *)
Theorem message_components (msg_elem : Element) :
  exists m, _parse_service_message msg_elem = Some m
    /\ map comp_id (components m)
       = map (fun c => get_default c "id" "") (component_elems msg_elem)
    /\ map component_type (components m) = map tag (component_elems msg_elem)
    /\ map value (components m)
       = map (fun c => get_default c "v" "") (component_elems msg_elem)
    /\ List.length (components m) = List.length (component_elems msg_elem).
Proof.
  eexists. split; [reflexivity|]. cbn [components]. unfold component_elems.
  destruct (parse_components_fields msg_elem "CONSTCOMP") as (A1 & B1 & C1).
  destruct (parse_components_fields msg_elem "STATICCOMP") as (A2 & B2 & C2).
  destruct (parse_components_fields msg_elem "SIMPLEPROXYCOMP") as (A3 & B3 & C3).
  assert (HA : map comp_id
                 (parse_components msg_elem "CONSTCOMP"
                  ++ parse_components msg_elem "STATICCOMP"
                  ++ parse_components msg_elem "SIMPLEPROXYCOMP")%list
               = map (fun c => get_default c "id" "")
                   (findall_desc "CONSTCOMP" msg_elem
                    ++ findall_desc "STATICCOMP" msg_elem
                    ++ findall_desc "SIMPLEPROXYCOMP" msg_elem)%list).
  { rewrite !map_app, A1, A2, A3. reflexivity. }
  split; [exact HA|].
  split; [rewrite !map_app, B1, B2, B3; reflexivity|].
  split; [rewrite !map_app, C1, C2, C3; reflexivity|].
  rewrite <- (length_map comp_id), HA, length_map. reflexivity.
Qed.

(** *** Which DIDs are kept *)

(** X12.  A DID element is dropped exactly when [int] refuses its [n]
    attribute.  An [n] made of at most 4300 decimal digits is accepted, with
    a number that is not negative; an [n] of more decimal digits than that
    is refused, and so is an [n] written in hex ([0x..]). *)
Theorem did_kept_iff_number_parses :
  (forall did_elem,
     _parse_did did_elem = None
     <-> Py.int (get_default did_elem "n" "0") = Raise ValueError)
  /\ (forall did_elem s, get did_elem "n" = Some s -> s <> "" ->
        Py.all_chars is_decimal_digit s = true ->
        Z.of_nat (String.length s) <= 4300 ->
        exists d, _parse_did did_elem = Some d /\ 0 <= number d
          /\ Py.int s = Ok (number d))
  /\ (forall did_elem s, get did_elem "n" = Some s ->
        Py.all_chars is_decimal_digit s = true ->
        4300 < Z.of_nat (String.length s) ->
        _parse_did did_elem = None)
  /\ (forall did_elem s, get did_elem "n" = Some (String "0" (String "x" s)) ->
        _parse_did did_elem = None).
Proof.
  split; [|split; [|split]].
  - intros e. unfold _parse_did.
    destruct (Py.int (get_default e "n" "0")) as [n|x] eqn:E; cbn.
    + split; discriminate.
    + apply int_base_raises in E as ->. split; reflexivity.
  - intros e s Hn Hne Hs Hlen.
    destruct (int_decimal s Hne Hs Hlen) as (n & Hi & Hn0).
    assert (Hg : get_default e "n" "0" = s).
    { unfold get_default. unfold get in Hn. rewrite Hn. reflexivity. }
    destruct (parse_did_total e n) as (d & Hd & Hnum); [rewrite Hg; exact Hi|].
    exists d. rewrite Hnum. auto.
  - intros e s Hn Hs Hlen.
    assert (Hg : get_default e "n" "0" = s).
    { unfold get_default. unfold get in Hn. rewrite Hn. reflexivity. }
    unfold _parse_did. rewrite Hg, (int_decimal_long s Hs Hlen). reflexivity.
  - intros e s Hn.
    assert (Hg : get_default e "n" "0" = String "0" (String "x" s)).
    { unfold get_default. unfold get in Hn. rewrite Hn. reflexivity. }
    assert (E : Py.int (String "0" (String "x" s)) = Raise ValueError)
      by (destruct s; reflexivity).
    unfold _parse_did. rewrite Hg, E. reflexivity.
Qed.

Lemma did_kept_iff_number_parses_witness :
  (exists d, _parse_did structured_did_elem = Some d /\ 0 <= number d
     /\ Py.int "61836" = Ok (number d))
  /\ _parse_did long_numbered_did_elem = None
  /\ _parse_did hex_numbered_did_elem = None.
Proof.
  destruct did_kept_iff_number_parses as (_ & A & B & C). split; [|split].
  - apply (A structured_did_elem "61836");
      [reflexivity | discriminate | reflexivity | vm_compute; discriminate].
  - apply (B long_numbered_did_elem (Py.zeros 4301));
      [vm_compute; reflexivity | vm_compute; reflexivity | vm_compute; reflexivity].
  - apply (C hex_numbered_did_elem "F18C"). reflexivity.
Defined.

(** X13.  The data objects of a DID record are the [DATAOBJ] descendants of
    the first [STRUCTURE] child, in document order, none left out; a DID
    without [STRUCTURE] child has none, wherever else [DATAOBJ] elements
    may sit. *)
Theorem did_data_objects (did_elem : Element) (d : CDDDID) :
  _parse_did did_elem = Some d ->
  match find_child "STRUCTURE" did_elem with
  | Some structure_elem =>
      map obj_id (data_objects d)
      = map (fun x => get_default x "id" "") (findall_desc "DATAOBJ" structure_elem)
      /\ map data_type_ref (data_objects d)
         = map (fun x => get_default x "dtref" "") (findall_desc "DATAOBJ" structure_elem)
  | None => data_objects d = []
  end.
Proof.
  unfold _parse_did.
  destruct (Py.int (get_default did_elem "n" "0")) as [n|e]; [|discriminate].
  cbn. intros [= <-]. cbn [data_objects].
  destruct (find_child "STRUCTURE" did_elem) as [st|]; [|reflexivity].
  split; apply omap_total_map; intros x _; eexists; split; reflexivity.
Qed.

Lemma did_data_objects_witness :
  exists d, _parse_did structured_did_elem = Some d
    /\ map obj_id (data_objects d) = ["obj_1"; "obj_2"].
Proof.
  destruct (_parse_did structured_did_elem) as [d|] eqn:E;
    [|vm_compute in E; discriminate E].
  exists d. split; [reflexivity|].
  pose proof (did_data_objects structured_did_elem d E) as H.
  exact (proj1 H).
Defined.

(** *** Which services are kept *)

Lemma resolve_description_cases service_elem :
  resolve_description service_elem (locate_name service_elem) Unbound
  = if truthy (desc_text service_elem)
    then Ok (or_else (desc_text service_elem) "")
    else if truthy (name_text service_elem)
         then Raise UnboundLocalError
         else Ok "UDS diagnostic service".
Proof.
  unfold resolve_description, desc_text, name_text.
  destruct (find_path "DESC" "TUV" service_elem) as [[dt da [[|c d]|] dc]|];
    cbn [text truthy or_else]; try reflexivity;
    destruct (locate_name service_elem) as [[nt na [[|c' n]|] nc]|]; reflexivity.
Qed.

(** X14.  A service element is dropped exactly when it has no description
    text but has a name text; a record that is returned carries either the
    [DESC] text or the constant ["UDS diagnostic service"], so a description
    from the enrichment table never reaches a parsed record. *)
Theorem service_kept_iff (service_elem : Element) :
  (_parse_protocol_service service_elem = None
   <-> truthy (desc_text service_elem) = false
       /\ truthy (name_text service_elem) = true)
  /\ (forall s, _parse_protocol_service service_elem = Some s ->
        (truthy (desc_text service_elem) = true
         /\ desc_text service_elem = Some (svc_description s))
        \/ (truthy (desc_text service_elem) = false
            /\ truthy (name_text service_elem) = false
            /\ svc_description s = "UDS diagnostic service")).
Proof.
  destruct (extract_sid_total service_elem) as [sid Hs].
  unfold _parse_protocol_service. rewrite resolve_description_cases, Hs.
  destruct (truthy (desc_text service_elem)) eqn:Hd.
  - cbn. split; [split; [discriminate | intros [[=] _]]|].
    intros s [= <-]. left. split; [reflexivity|]. cbn.
    destruct (desc_text service_elem) as [[|c d]|]; try discriminate Hd. reflexivity.
  - destruct (truthy (name_text service_elem)) eqn:Hn; cbn.
    + split; [split; auto | discriminate].
    + split; [split; [discriminate | intros [_ [=]]]|].
      intros s [= <-]. right. auto.
Qed.

(** *** What a parsing pass does to the document *)

(** X15.  A parsing pass only appends: the DID list and the service list
    keep their entries in place and receive what the root element yields;
    ECU name and version stay, the communication parameters are reset, the
    manufacturer changes only when the tree has an [ECUDOC] element.  A
    second pass over the same tree with the same document holds every
    extracted record twice. *)
Theorem parse_root_appends (root : Element) (document : CDDDocument) :
  dids (parse_root root document) = (dids document ++ extracted_dids root)%list
  /\ protocol_services (parse_root root document)
     = (protocol_services document ++ extracted_services root)%list
  /\ ecu_name (parse_root root document) = ecu_name document
  /\ version (parse_root root document) = version document
  /\ communication_params (parse_root root document) = new_communication_params
  /\ manufacturer (parse_root root document)
     = match find_desc "ECUDOC" root with
       | Some ecudoc => get_default ecudoc "manufacturer" "Unknown"
       | None => manufacturer document
       end
  /\ dids (parse_root root (parse_root root document))
     = (dids document ++ extracted_dids root ++ extracted_dids root)%list
  /\ protocol_services (parse_root root (parse_root root document))
     = (protocol_services document ++ extracted_services root
        ++ extracted_services root)%list.
Proof.
  assert (H : forall doc,
    dids (parse_root root doc) = (dids doc ++ extracted_dids root)%list
    /\ protocol_services (parse_root root doc)
       = (protocol_services doc ++ extracted_services root)%list
    /\ ecu_name (parse_root root doc) = ecu_name doc
    /\ version (parse_root root doc) = version doc
    /\ communication_params (parse_root root doc) = new_communication_params
    /\ manufacturer (parse_root root doc)
       = match find_desc "ECUDOC" root with
         | Some ecudoc => get_default ecudoc "manufacturer" "Unknown"
         | None => manufacturer doc
         end).
  { intros doc.
    unfold parse_root, _extract_protocol_services, _extract_dids,
      _extract_communication_params, _extract_document_info,
      extracted_dids, extracted_services.
    destruct (find_desc "PROTOCOLSERVICES" root), (find_desc "DIDS" root),
      (find_desc "ECUDOC" root); cbn; rewrite ?app_nil_r; repeat split. }
  destruct (H document) as (A & B & C & D & E & F).
  destruct (H (parse_root root document)) as (A' & B' & _).
  rewrite A', B', A, B, <- !app_assoc. repeat split; assumption.
Qed.

(** *** The enrichment function *)

Lemma uds_descriptions_values n d : uds_descriptions !! n = Some d -> d <> "".
Proof.
  intros H. unfold uds_descriptions in H. apply elem_of_list_to_map_2 in H.
  repeat (apply elem_of_cons in H as [[= _ ->] | H]; [discriminate|]).
  inversion H.
Qed.

(** X16.  The enrichment function never returns an empty description; a
    service ID found in the table decides alone, the name being ignored;
    and a name text is only looked at when the ID is unknown, an empty name
    giving the generic sentence. *)
Theorem enhanced_description_nonempty :
  (forall service_name sid,
     _get_enhanced_service_description service_name sid <> "")
  /\ (forall service_name n d, uds_descriptions !! n = Some d ->
        _get_enhanced_service_description service_name (Some n) = d)
  /\ (forall sid,
        match sid with Some n => uds_descriptions !! n = None | None => True end ->
        _get_enhanced_service_description "" sid = generic_description "").
Proof.
  split; [|split].
  - intros service_name sid. unfold _get_enhanced_service_description.
    destruct (match sid with Some n => uds_descriptions !! n | None => None end)
      as [d|] eqn:E.
    + destruct sid as [n|]; [|discriminate E]. apply (uds_descriptions_values n d E).
    + repeat match goal with
             | |- context [if ?b then _ else _] => destruct b
             end; vm_compute; discriminate.
  - intros service_name n d H. unfold _get_enhanced_service_description.
    rewrite H. reflexivity.
  - intros sid H. unfold _get_enhanced_service_description.
    destruct sid as [n|]; [rewrite H|]; reflexivity.
Qed.

Lemma enhanced_description_nonempty_witness :
  _get_enhanced_service_description "Vendor service" (Some 0x22)
  = "Reads data from ECU memory using Data Identifiers (DIDs). Provides access to real-time data, configuration parameters, and diagnostic information.".
Proof.
  apply (proj1 (proj2 enhanced_description_nonempty) "Vendor service" 0x22).
  vm_compute. reflexivity.
Defined.

Lemma service_kept_iff_witness :
  _parse_protocol_service session_control_elem = None.
Proof.
  apply (proj1 (service_kept_iff session_control_elem)). split; reflexivity.
Defined.

End ParserMore.

(* ===================================================================== *)
(** ** Properties of the upload filter *)
(* ===================================================================== *)

Module WebAppProps.
Import WebApp.

Example allowed_upper_case : allowed_file "NX3_UDS.CDD" = true.
Proof. vm_compute. reflexivity. Qed.

Example refused_trailing_dot : allowed_file "ecu.cdd." = false.
Proof. vm_compute. reflexivity. Qed.

Lemma rsplit_dot_none s : rsplit_dot s = None <-> Py.char_in "." s = false.
Proof.
  induction s as [|c s IH]; cbn [rsplit_dot Py.char_in]; [split; reflexivity|].
  rewrite (Ascii.eqb_sym "." c).
  destruct (rsplit_dot s) as [[b e]|].
  - split; [discriminate|]. intros H. apply orb_false_iff in H as [_ H].
    apply IH in H. discriminate H.
  - destruct (Ascii.eqb c "."); cbn; [split; discriminate|].
    split; [intros _; apply IH; reflexivity | reflexivity].
Qed.

Lemma rsplit_dot_some s : forall b e,
  rsplit_dot s = Some (b, e)
  <-> s = b ++ String "." e /\ Py.char_in "." e = false.
Proof.
  induction s as [|c s IH]; intros b e; cbn [rsplit_dot].
  - split; [discriminate|]. intros [H _]. destruct b; discriminate H.
  - destruct (rsplit_dot s) as [[b' e']|] eqn:E.
    + split.
      * intros [= <- <-]. destruct (proj1 (IH b' e') eq_refl) as [-> He].
        split; [reflexivity | exact He].
      * intros [H He]. destruct b as [|c0 b0].
        -- cbn in H. injection H as -> ->.
           apply rsplit_dot_none in He. congruence.
        -- cbn in H. injection H as -> Hs.
           pose proof (proj2 (IH b0 e) (conj Hs He)) as H'.
           injection H' as -> ->. reflexivity.
    + pose proof (proj1 (rsplit_dot_none s) E) as Hn.
      destruct (Ascii.eqb c ".") eqn:Ec.
      * apply Ascii.eqb_eq in Ec as ->. split.
        -- intros [= <- <-]. split; [reflexivity | exact Hn].
        -- intros [H He]. destruct b as [|c0 b0].
           ++ cbn in H. injection H as ->. reflexivity.
           ++ cbn in H. injection H as Hc Hs. subst c0.
              pose proof (proj2 (IH b0 e) (conj Hs He)) as H'. discriminate H'.
      * split; [discriminate|]. intros [H He]. destruct b as [|c0 b0].
        -- cbn in H. injection H as -> _. rewrite Ascii.eqb_refl in Ec.
           discriminate Ec.
        -- cbn in H. injection H as -> Hs.
           pose proof (proj2 (IH b0 e) (conj Hs He)) as H'. discriminate H'.
Qed.

(** X17.  [allowed_file] accepts a name exactly when the name is a stem, a
    dot and an extension without dot that is [cdd] or [xml] in any letter
    case.  A name without dot, or ending in a dot, is refused. *)
Theorem allowed_file_iff (filename : string) :
  (allowed_file filename = true
   <-> exists stem ext,
         filename = stem ++ String "." ext
         /\ Py.char_in "." ext = false
         /\ (lower ext = "cdd" \/ lower ext = "xml"))
  /\ (Py.char_in "." filename = false -> allowed_file filename = false)
  /\ (forall stem, allowed_file (stem ++ ".") = false).
Proof.
  assert (M : forall ext, bool_decide (lower ext ∈ ALLOWED_EXTENSIONS) = true
                <-> lower ext = "cdd" \/ lower ext = "xml").
  { intros ext. rewrite bool_decide_eq_true. unfold ALLOWED_EXTENSIONS.
    rewrite elem_of_union, !elem_of_singleton. reflexivity. }
  split; [|split].
  - unfold allowed_file. split.
    + intros H. apply andb_true_iff in H as [_ H].
      destruct (rsplit_dot filename) as [[b e]|] eqn:E; [|discriminate H].
      apply rsplit_dot_some in E as [-> He]. exists b, e.
      split; [reflexivity|]. split; [exact He|]. apply M, H.
    + intros (b & e & Hf & He & Hx).
      pose proof (proj2 (rsplit_dot_some filename b e) (conj Hf He)) as E.
      rewrite E. apply andb_true_iff. split; [|apply M, Hx].
      destruct (Py.char_in "." filename) eqn:Hc; [reflexivity|].
      apply rsplit_dot_none in Hc. congruence.
  - intros H. unfold allowed_file. rewrite H. reflexivity.
  - intros stem. unfold allowed_file.
    rewrite (proj2 (rsplit_dot_some (stem ++ ".") stem "") (conj eq_refl eq_refl)).
    apply andb_false_r.
Qed.

Lemma allowed_file_iff_witness :
  allowed_file "NX3_UDS.v2.Cdd" = true /\ allowed_file "NX3_UDS" = false.
Proof.
  split.
  - apply (proj1 (allowed_file_iff "NX3_UDS.v2.Cdd")).
    exists "NX3_UDS.v2", "Cdd". repeat split; try reflexivity. left. reflexivity.
  - apply (proj1 (proj2 (allowed_file_iff "NX3_UDS"))). reflexivity.
Defined.

End WebAppProps.
